(** * AtmosphereModel: a shallow embedding of
    [src/assets/scripts/client/environment/AtmosphereModel.js]

    The JavaScript class is embedded as a record (the instance's fields) and
    one function per method.  A method that can throw returns a [result];
    numbers are IEEE 754 binary64 values (Rocq's primitive [float]), objects
    used as tables are finite maps keyed by property keys. *)

From Stdlib Require Import ZArith Lia Bool List Ascii.
From Stdlib Require Import Floats.
From stdpp Require Import base option list list_numbers gmap strings pretty.

Set Warnings "-inexact-float,-register-all".
Local Open Scope Z_scope.

(** ** The fragment of JavaScript the class relies on *)

Module JS.

(** A JavaScript Number. *)
Definition number : Type := float.

(** The values that reach the class: primitives and plain data objects
    (a list of own properties, in insertion order). *)
Inductive value : Type :=
| VUndefined
| VNull
| VBool (b : bool)
| VNum (x : number)
| VStr (s : string)
| VObj (props : list (string * value)).

(** What a [throw] carries.  The engine raises [CannotReadProperty] for a
    property read on [undefined] or [null]; [TypeError] is
    [new TypeError(message)]. *)
Inductive error : Type :=
| CannotReadProperty (base : value) (name : string)
| TypeError (message : string).

(** A completion: a normal value or an exception. *)
Inductive result (A : Type) : Type :=
| Return (a : A)
| Throw (e : error).
Arguments Return {A} a.
Arguments Throw {A} e.

(** Sequencing: an exception skips the rest ([x ← c; k] is stdpp's
    notation for it). *)
Global Instance result_ret : MRet result := fun A a => Return a.

Global Instance result_bind : MBind result := fun A B k c =>
  match c with
  | Return a => k a
  | Throw e => Throw e
  end.

(** [typeof v === 'undefined'] *)
Definition is_undefined (v : value) : bool :=
  match v with
  | VUndefined => true
  | _ => false
  end.

Fixpoint own_property (props : list (string * value)) (name : string) : value :=
  match props with
  | [] => VUndefined
  | (k, v) :: rest => if String.eqb k name then v else own_property rest name
  end.

(** [base.name], for a name that no prototype defines (every name read in
    this class is such a name): [undefined] and [null] have no properties,
    an object yields its own property, any other primitive yields
    [undefined]. *)
Definition Get (base : value) (name : string) : result value :=
  match base with
  | VUndefined | VNull => Throw (CannotReadProperty base name)
  | VObj props => Return (own_property props name)
  | VBool _ | VNum _ | VStr _ => Return VUndefined
  end.

(** *** Numbers *)

(** The loop counters and integer literals of the class are integers far
    below 2^53, which a Number holds exactly. *)
Definition number_of_Z (z : Z) : number :=
  match z with
  | Z0 => 0%float
  | Zpos _ => of_uint63 (Uint63.of_Z z)
  | Zneg p => (- of_uint63 (Uint63.of_Z (Zpos p)))%float
  end.

(** The integer a Number denotes, when it denotes one of magnitude below
    2^53: the Numbers whose digits, as [Number::toString] prints them, are
    the decimal digits of that integer.  From 2^53 on the shortest digits
    that read back as the Number are printed, padded with zeros, and are
    the engine's to find. *)
Definition integer_value (x : number) : option Z :=
  match Prim2SF x with
  | S754_zero _ => Some 0
  | S754_finite s m e =>
      (* the Number is [m * 2^e], negated when [s] *)
      let magnitude :=
        if 0 <=? e then
          if e <=? 70 then Some (Z.shiftl (Zpos m) e) else None
        else
          let q := Z.shiftr (Zpos m) (- e) in
          if Z.shiftl q (- e) =? Zpos m then Some q else None in
      match magnitude with
      | Some z =>
          if z <? 9007199254740992 then Some (if s then - z else z)
          else None
      | None => None
      end
  | S754_infinity _ | S754_nan => None
  end.

(** The canonical binary64 form of a non-zero integer of magnitude [p],
    below 2^53. *)
Definition canonical (s : bool) (p : positive) : spec_float :=
  S754_finite s (Z.to_pos (Zpos p * 2 ^ (53 - Zpos (digits2_pos p))))
    (Zpos (digits2_pos p) - 53).

(** The characters a [StringNumericLiteral] can be made of: white space and
    line terminators (every non-ASCII byte is counted in, since some encode
    white space), digits, signs, the dot, and the letters of exponents,
    of the radix prefixes, of hexadecimal digits and of [Infinity]. *)
Definition numeric_literal_char (c : ascii) : bool :=
  let n := Z.of_N (Ascii.N_of_ascii c) in
  (128 <=? n) || ((9 <=? n) && (n <=? 13)) || (n =? 32)
  || ((48 <=? n) && (n <=? 57))
  || (n =? 43) || (n =? 45) || (n =? 46)
  || ((65 <=? n) && (n <=? 70)) || ((97 <=? n) && (n <=? 102))
  || existsb (Ascii.eqb c)
       ["x"; "X"; "o"; "O"; "b"; "B"; "I"; "n"; "i"; "t"; "y"]%char.

(** What the engine itself decides: the approximation of a power of finite
    operands, the value of a numeric string, the Number an object converts
    to (through its [valueOf] and [toString]) and the digits of a Number
    that is not a small integer. *)
Record engine : Type := {
  pow_approximation : number -> number -> number;
  numeric_literal_value : string -> number;
  object_to_number : list (string * value) -> number;
  number_digits : number -> string
}.

Section Semantics.
Context (E : engine).

(** [StringToNumber]: a string holding a character outside the grammar of
    [StringNumericLiteral] is [NaN]. *)
Definition StringToNumber (s : string) : number :=
  if forallb numeric_literal_char (String.list_ascii_of_string s)
  then numeric_literal_value E s
  else nan.

Definition ToNumber (v : value) : number :=
  match v with
  | VUndefined => nan
  | VNull => 0%float
  | VBool b => if b then 1%float else 0%float
  | VNum x => x
  | VStr s => StringToNumber s
  | VObj props => object_to_number E props
  end.

(** [Number::exponentiate], the [**] operator: the first three steps of the
    standard are exact, the rest is the engine's. *)
Definition exponentiate (base exponent : number) : number :=
  if is_nan exponent then nan
  else if is_zero exponent then 1%float
  else if is_nan base then nan
  else pow_approximation E base exponent.

(** [Number::toString] *)
Definition NumberToString (x : number) : string :=
  match integer_value x with
  | Some z => pretty z
  | None =>
      if is_nan x then "NaN"
      else if (x =? infinity)%float then "Infinity"
      else if (x =? neg_infinity)%float then "-Infinity"
      else number_digits E x
  end.

End Semantics.

(** [Math.E] *)
Definition Math_E : number := 2.718281828459045%float.

(** [Math.min] and [Math.max] of two Numbers. *)
Definition nativeMin (a b : number) : number :=
  if is_nan a || is_nan b then nan
  else if (a <? b)%float then a
  else if (b <? a)%float then b
  else if get_sign a then a else b.

Definition nativeMax (a b : number) : number :=
  if is_nan a || is_nan b then nan
  else if (b <? a)%float then a
  else if (a <? b)%float then b
  else if get_sign a then b else a.

(** *** Property keys

    A key that is the decimal string of an integer is kept as that integer;
    any other key is kept as its string.  The key of a Number of magnitude
    2^53 or more is kept as the string of the digits the engine prints. *)
Inductive property_key : Type :=
| IntegerKey (z : Z)
| StringKey (s : string).

Global Instance property_key_eq_dec : EqDecision property_key.
Proof. solve_decision. Defined.

Global Instance property_key_countable : Countable property_key.
Proof.
  refine (inj_countable'
    (fun k => match k with IntegerKey z => inl z | StringKey s => inr s end)
    (fun x => match x with inl z => IntegerKey z | inr s => StringKey s end) _).
  intros []; reflexivity.
Defined.

(** [ToPropertyKey] of a Number. *)
Definition ToPropertyKey (E : engine) (x : number) : property_key :=
  match integer_value x with
  | Some z => IntegerKey z
  | None => StringKey (NumberToString E x)
  end.

(** An object used as a table. *)
Abbreviation table := (gmap property_key value).

(** [object[key]] *)
Definition read (object : table) (key : property_key) : value :=
  default VUndefined (object !! key).

End JS.

Import JS.

(** ** What the class imports *)

(** [lodash/inRange], as lodash defines it:
    [inRange(number, start, end)] converts the bounds with [toFinite] and
    answers [number >= Math.min(start, end) && number < Math.max(start, end)].
    All three arguments are Numbers here. *)
Module Lodash.

Definition MAX_INTEGER : number := 1.7976931348623157e+308%float.

Definition toFinite (x : number) : number :=
  if is_zero x then x
  else if is_nan x then 0%float
  else if is_infinity x then
    ((if (x <? 0)%float then -1 else 1) * MAX_INTEGER)%float
  else x.

(** [number >= nativeMin(start, end) && number < nativeMax(start, end)] *)
Definition baseInRange (n start end_ : number) : bool :=
  (nativeMin start end_ <=? n)%float && (n <? nativeMax start end_)%float.

Definition inRange (n start end_ : number) : bool :=
  baseInRange n (toFinite start) (toFinite end_).

End Lodash.

(** [import _inRange from 'lodash/inRange'] *)
Definition _inRange (n start end_ : number) : bool := Lodash.inRange n start end_.

(** What the class imports from the rest of the repository, taken as
    parameters: the table of constants [ENVIRONMENT] (an object; a constant
    it lacks reads as [undefined]) and the helpers of [math/vector] and
    [utilities/unitConverters], which may throw. *)
Record imports : Type := {
  ENVIRONMENT : list (string * value);
  vectorize_2d : value -> result value;
  vscale : value -> value -> result value;
  degreesToRadians : value -> result value
}.

(** ** The class *)

Record AtmosphereModel : Type := mkAtmosphereModel {
  _seaLevelTemperature : value;
  _seaLevelPressure : value;
  _seaLevelWindVector : value;
  _densityGradient : table;
  _pressureGradient : table;
  _temperatureGradient : table
}.

Definition set_seaLevelTemperature (v : value) (this : AtmosphereModel) :=
  mkAtmosphereModel v (_seaLevelPressure this) (_seaLevelWindVector this)
    (_densityGradient this) (_pressureGradient this) (_temperatureGradient this).

Definition set_seaLevelWindVector (v : value) (this : AtmosphereModel) :=
  mkAtmosphereModel (_seaLevelTemperature this) (_seaLevelPressure this) v
    (_densityGradient this) (_pressureGradient this) (_temperatureGradient this).

Definition set_densityGradient (g : table) (this : AtmosphereModel) :=
  mkAtmosphereModel (_seaLevelTemperature this) (_seaLevelPressure this)
    (_seaLevelWindVector this) g (_pressureGradient this)
    (_temperatureGradient this).

Definition set_pressureGradient (g : table) (this : AtmosphereModel) :=
  mkAtmosphereModel (_seaLevelTemperature this) (_seaLevelPressure this)
    (_seaLevelWindVector this) (_densityGradient this) g
    (_temperatureGradient this).

Definition set_temperatureGradient (g : table) (this : AtmosphereModel) :=
  mkAtmosphereModel (_seaLevelTemperature this) (_seaLevelPressure this)
    (_seaLevelWindVector this) (_densityGradient this)
    (_pressureGradient this) g.

(** [for (let alt = first; alt < first + count; alt++) body]: the counter
    starts at [first] and the body runs [count] times.  The counter is kept
    as the integer it denotes; the body converts it where it is used as a
    Number or as a key. *)
Fixpoint iterate {S : Type} (count : nat) (alt : Z) (body : Z -> S -> S) (s : S) : S :=
  match count with
  | O => s
  | Datatypes.S count => iterate count (alt + 1) body (body alt s)
  end.

Definition for_alt {S : Type} (first count : Z) (body : Z -> S -> S) (s : S) : S :=
  iterate (Z.to_nat count) first body s.

(** [P] holds of every value the counter of such a loop takes. *)
Definition all_alt (first count : Z) (P : Z -> bool) : bool :=
  for_alt first count (fun alt b => b && P alt) true.

Section Class.
Context (E : engine) (I : imports).

Definition ENVIRONMENT_get (name : string) : value :=
  own_property (ENVIRONMENT I) name.

(** *** Lines 93-112 *)

(** [b0ReferencePressure * ((b0ReferenceTemperature - (0.00198121311 * alt))
    / b0ReferenceTemperature) ** 5.255876329]: the expression of the first
    loop, and of [b1ReferencePressure] with 36089 for [alt]. *)
Definition barometric
    (b0ReferencePressure b0ReferenceTemperature : value) (alt : number) : number :=
  (ToNumber E b0ReferencePressure *
   exponentiate E
     ((ToNumber E b0ReferenceTemperature - (0.00198121311 * alt))
      / ToNumber E b0ReferenceTemperature)
     5.255876329)%float.

(** [b1ReferencePressure * (Math.E ** (-0.0000480634303 * (alt - 36089)))] *)
Definition isothermal (b1ReferencePressure alt : number) : number :=
  (b1ReferencePressure *
   exponentiate E Math_E (- 0.0000480634303 * (alt - 36089)))%float.

Definition _initPressureGradient (this : AtmosphereModel) : AtmosphereModel :=
  let this := set_pressureGradient ∅ this in
  let b0ReferencePressure := _seaLevelPressure this in
  let b0ReferenceTemperature := _seaLevelTemperature this in
  let b1ReferencePressure :=
    barometric (_seaLevelPressure this) b0ReferenceTemperature 36089%float in
  let this :=
    for_alt (-2000) (36089 - -2000) (fun alt this =>
      set_pressureGradient
        (<[ToPropertyKey E (number_of_Z alt) :=
             VNum (barometric b0ReferencePressure b0ReferenceTemperature
                     (number_of_Z alt))]>
           (_pressureGradient this)) this) this in
  for_alt 36089 (65617 + 1 - 36089) (fun alt this =>
    set_pressureGradient
      (<[ToPropertyKey E (number_of_Z alt) :=
           VNum (isothermal b1ReferencePressure (number_of_Z alt))]>
         (_pressureGradient this)) this) this.

(** *** Lines 121-127 *)

Definition _initTemperatureFromSurfaceTemperature
    (surfaceTemperature : value) (this : AtmosphereModel) : AtmosphereModel :=
  let this :=
    if is_undefined surfaceTemperature
    then set_seaLevelTemperature
           (ENVIRONMENT_get "DEFAULT_SEA_LEVEL_TEMPERATURE") this
    else this in
  set_seaLevelTemperature (VStr "calculated new value") this.

(** *** Lines 138-150 *)

(** [this._seaLevelTemperature - (0.00198121311 * alt)] *)
Definition lapse (this : AtmosphereModel) (alt : number) : number :=
  (ToNumber E (_seaLevelTemperature this) - (0.00198121311 * alt))%float.

Definition _initTemperatureGradient (this : AtmosphereModel) : AtmosphereModel :=
  let this := set_temperatureGradient ∅ this in
  let this :=
    for_alt (-2000) (36089 - -2000) (fun alt this =>
      set_temperatureGradient
        (<[ToPropertyKey E (number_of_Z alt) :=
             VNum (lapse this (number_of_Z alt))]>
           (_temperatureGradient this)) this) this in
  for_alt 36089 (65617 + 1 - 36089) (fun alt this =>
    set_temperatureGradient
      (<[ToPropertyKey E (number_of_Z alt) :=
           VNum (lapse this 36089%float)]>
         (_temperatureGradient this)) this) this.

(** *** Lines 74-80 *)

(** [11.796888418 * this._pressureGradient[alt] / this._temperatureGradient[alt]] *)
Definition density (this : AtmosphereModel) (key : property_key) : number :=
  (11.796888418 * ToNumber E (read (_pressureGradient this) key)
   / ToNumber E (read (_temperatureGradient this) key))%float.

Definition _initDensityGradient (this : AtmosphereModel) : AtmosphereModel :=
  let this := set_densityGradient ∅ this in
  for_alt (-2000) (65617 + 1 - -2000) (fun alt this =>
    let key := ToPropertyKey E (number_of_Z alt) in
    set_densityGradient
      (<[key := VNum (density this key)]> (_densityGradient this)) this) this.

(** *** Lines 159-165 *)

Definition _initWindFromSurfaceWind
    (surfaceWind : value) (this : AtmosphereModel) : result AtmosphereModel :=
  let this :=
    if is_undefined surfaceWind
    then set_seaLevelWindVector
           (ENVIRONMENT_get "DEFAULT_SEA_LEVEL_WIND_VECTOR") this
    else this in
  angle ← Get surfaceWind "angle";
  radians ← degreesToRadians I angle;
  direction ← vectorize_2d I radians;
  speed ← Get surfaceWind "speed";
  wind ← vscale I direction speed;
  Return (set_seaLevelWindVector wind this).

(** *** Lines 60-72 *)

Definition _init (data : value) (this : AtmosphereModel) : result AtmosphereModel :=
  surfaceTemperature ← Get data "surfaceTemperature";
  _ ← Get data "surfaceElevation";
  let this := _initTemperatureFromSurfaceTemperature surfaceTemperature this in
  surfaceWind ← Get data "surfaceWind";
  _ ← Get data "surfaceElevation";
  this ← _initWindFromSurfaceWind surfaceWind this;
  let this := _initPressureGradient this in
  let this := _initTemperatureGradient this in
  let this := _initDensityGradient this in
  Return this.

(** *** Lines 17-51: [new AtmosphereModel(data)] *)

Definition new (data : value) : result AtmosphereModel :=
  let this := {|
    _seaLevelTemperature := ENVIRONMENT_get "DEFAULT_SEA_LEVEL_TEMPERATURE_K";
    _seaLevelPressure := ENVIRONMENT_get "DEFAULT_SEA_LEVEL_PRESSURE_INHG";
    _seaLevelWindVector := VUndefined;
    _densityGradient := ∅;
    _pressureGradient := ∅;
    _temperatureGradient := ∅
  |} in
  _init data this.

(** *** Lines 171-197: the queries *)

Definition getActualAltitudeForPressureAltitude
    (this : AtmosphereModel) (arguments : list value) : result value :=
  Return VUndefined.

Definition getPressureAltitudeForActualAltitude
    (this : AtmosphereModel) (arguments : list value) : result value :=
  Return VUndefined.

Definition getDensityAltitudeForActualAltitude
    (this : AtmosphereModel) (arguments : list value) : result value :=
  Return VUndefined.

Definition out_of_range_message (actualAltitude : number) : string :=
  "Expected altitude within -2000 ft to 65617 ft, but received altitude of "
  +:+ NumberToString E actualAltitude.

Definition getTemperatureAtActualAltitude
    (this : AtmosphereModel) (actualAltitude : number) : result value :=
  if negb (_inRange actualAltitude (-2000)%float 65617%float)
  then Throw (TypeError (out_of_range_message actualAltitude))
  else Return (read (_temperatureGradient this) (ToPropertyKey E actualAltitude)).

Definition getSoundSpeedAtActualAltitude
    (this : AtmosphereModel) (arguments : list value) : result value :=
  Return VUndefined.

Definition getWindAtActualAltitude
    (this : AtmosphereModel) (arguments : list value) : result value :=
  Return VUndefined.

(** *** The tables the three builders leave, entry by entry *)

(** What [_initPressureGradient] leaves in [_pressureGradient]. *)
Definition pressure_entry (this : AtmosphereModel) (k : property_key) : option value :=
  match k with
  | IntegerKey z =>
      if decide (-2000 <= z < 36089) then
        Some (VNum (barometric (_seaLevelPressure this) (_seaLevelTemperature this)
                      (number_of_Z z)))
      else if decide (36089 <= z <= 65617) then
        Some (VNum (isothermal
                      (barometric (_seaLevelPressure this)
                         (_seaLevelTemperature this) 36089%float)
                      (number_of_Z z)))
      else None
  | StringKey _ => None
  end.

(** What [_initTemperatureGradient] leaves in [_temperatureGradient]. *)
Definition temperature_entry (this : AtmosphereModel) (k : property_key) : option value :=
  match k with
  | IntegerKey z =>
      if decide (-2000 <= z < 36089) then Some (VNum (lapse this (number_of_Z z)))
      else if decide (36089 <= z <= 65617) then Some (VNum (lapse this 36089%float))
      else None
  | StringKey _ => None
  end.

(** What [_initDensityGradient] leaves in [_densityGradient]. *)
Definition density_entry (this : AtmosphereModel) (k : property_key) : option value :=
  match k with
  | IntegerKey z =>
      if decide (-2000 <= z <= 65617) then Some (VNum (density this k)) else None
  | StringKey _ => None
  end.

End Class.

(** A field of the instance that holds a table, with its assignment. *)
Class TableField {M : Type} (get : M -> table) (set : table -> M -> M) : Prop := {
  get_set : forall g m, get (set g m) = g;
  set_set : forall g g' m, set g (set g' m) = set g m;
  set_get : forall m, set (get m) m = m
}.

(** The altitudes of the model as property keys. *)
Definition altitude_key (k : property_key) : Prop :=
  exists z : Z, k = IntegerKey z /\ -2000 <= z <= 65617.

(** A completion that tells the caller something went wrong. *)
Definition signalled (r : result value) : Prop := exists e, r = Throw e.

(** [a > b] on Numbers. *)
Definition greater (a b : number) : bool := (b <? a)%float.

(** ** A sample engine, imports and input

    Used where a statement is instantiated: an engine that answers [NaN]
    wherever the choice is its own, the constants of the standard
    atmosphere, helpers that hand their argument back, and an input that
    only gives the surface wind. *)
Module Sample.

Definition E : engine := {|
  pow_approximation := fun _ _ => nan;
  numeric_literal_value := fun _ => nan;
  object_to_number := fun _ => nan;
  number_digits := fun _ => "0.5"
|}.

Definition I : imports := {|
  ENVIRONMENT :=
    [("DEFAULT_SEA_LEVEL_PRESSURE_INHG", VNum 29.92%float);
     ("DEFAULT_SEA_LEVEL_TEMPERATURE_K", VNum 288.15%float)];
  vectorize_2d := fun direction => Return direction;
  vscale := fun v _ => Return v;
  degreesToRadians := fun degrees => Return degrees
|}.

(** [{surfaceWind: {angle: 0, speed: 0}}] *)
Definition data : value :=
  VObj [("surfaceWind", VObj [("angle", VNum 0%float); ("speed", VNum 0%float)])].

(** What [new AtmosphereModel(data)] builds from it. *)
Definition model : AtmosphereModel :=
  _initDensityGradient E
    (_initTemperatureGradient E
       (_initPressureGradient E
          {| _seaLevelTemperature := VStr "calculated new value";
             _seaLevelPressure := VNum 29.92%float;
             _seaLevelWindVector := VNum 0%float;
             _densityGradient := ∅;
             _pressureGradient := ∅;
             _temperatureGradient := ∅ |})).

End Sample.

(** ** Further definitions *)

(** The loops as the source writes them: the counter is a Number, tested
    before each round and stepped by [alt++].  [fuel] bounds the rounds;
    [None] is a loop still running when it is used up. *)
Fixpoint for_number {S : Type} (fuel : nat) (test : number -> bool) (alt : number)
    (body : number -> S -> S) (s : S) : option S :=
  match fuel with
  | O => None
  | Datatypes.S fuel =>
      if test alt then for_number fuel test (alt + 1)%float body (body alt s)
      else Some s
  end.

(** [vscale(vectorize_2d(degreesToRadians(surfaceWind.angle)), surfaceWind.speed)],
    the right-hand side of line 164. *)
Definition surface_wind_vector (I : imports) (surfaceWind : value) : result value :=
  angle ← Get surfaceWind "angle";
  radians ← degreesToRadians I angle;
  direction ← vectorize_2d I radians;
  speed ← Get surfaceWind "speed";
  vscale I direction speed.

(** The instance the three builders leave when they start from the given
    sea-level pressure and wind vector and from the placeholder of line
    126. *)
Definition built (E : engine) (pressure wind : value) : AtmosphereModel :=
  _initDensityGradient E
    (_initTemperatureGradient E
       (_initPressureGradient E
          {| _seaLevelTemperature := VStr "calculated new value";
             _seaLevelPressure := pressure;
             _seaLevelWindVector := wind;
             _densityGradient := ∅;
             _pressureGradient := ∅;
             _temperatureGradient := ∅ |})).

(** The entry every gradient of a constructed model has at a key. *)
Definition nan_entry (k : property_key) : option value :=
  match k with
  | IntegerKey z => if decide (-2000 <= z <= 65617) then Some (VNum nan) else None
  | StringKey _ => None
  end.

(** A second input, with every field given, and imports whose unit
    converter rejects its argument. *)
Module Scenario.

(** [{surfaceTemperature: 30, surfaceElevation: 5000,
      surfaceWind: {angle: 0, speed: 0}}] *)
Definition data : value :=
  VObj [("surfaceTemperature", VNum 30%float);
        ("surfaceElevation", VNum 5000%float);
        ("surfaceWind", VObj [("angle", VNum 0%float); ("speed", VNum 0%float)])].

Definition faulty : imports := {|
  ENVIRONMENT := [];
  vectorize_2d := fun direction => Return direction;
  vscale := fun v _ => Return v;
  degreesToRadians := fun _ => Throw (TypeError "degrees must be a number")
|}.

(** An instance nothing has been built on yet. *)
Definition blank : AtmosphereModel := {|
  _seaLevelTemperature := VNum 288.15%float;
  _seaLevelPressure := VNum 29.92%float;
  _seaLevelWindVector := VUndefined;
  _densityGradient := ∅;
  _pressureGradient := ∅;
  _temperatureGradient := ∅
|}.

End Scenario.

(** An instance whose pressure and temperature gradients hold one reading
    each, at sea level, and whose density gradient has not been built. *)
Module Reading.

Definition instance : AtmosphereModel := {|
  _seaLevelTemperature := VNum 288.15%float;
  _seaLevelPressure := VNum 29.92%float;
  _seaLevelWindVector := VUndefined;
  _densityGradient := ∅;
  _pressureGradient := {[IntegerKey 0 := VNum 2%float]};
  _temperatureGradient := {[IntegerKey 0 := VNum 4%float]}
|}.

End Reading.

(** * Properties *)

(** ** Numbers *)

(** [NaN] absorbs the arithmetic of the class and compares below nothing. *)
Lemma Prim2SF_nan : Prim2SF nan = S754_nan.
Proof. reflexivity. Qed.

Lemma sub_nan_l (y : number) : (nan - y)%float = nan.
Proof.
  apply Prim2SF_inj. rewrite sub_spec, Prim2SF_nan. reflexivity.
Qed.

Lemma div_nan_l (y : number) : (nan / y)%float = nan.
Proof.
  apply Prim2SF_inj. rewrite div_spec, Prim2SF_nan. reflexivity.
Qed.

Lemma mul_nan_l (y : number) : (nan * y)%float = nan.
Proof.
  apply Prim2SF_inj. rewrite mul_spec, Prim2SF_nan. reflexivity.
Qed.

Lemma mul_nan_r (x : number) : (x * nan)%float = nan.
Proof.
  apply Prim2SF_inj. rewrite mul_spec, Prim2SF_nan.
  unfold SF64mul, SFmul. destruct (Prim2SF x); reflexivity.
Qed.

Lemma ltb_nan_l (y : number) : (nan <? y)%float = false.
Proof. rewrite ltb_spec, Prim2SF_nan. reflexivity. Qed.

(** *** Integers as Numbers

    An integer of magnitude below 2^53 is held exactly: its binary64 form is
    [canonical], it reads back as itself, and the order of such Numbers is
    the order of the integers. *)
Lemma digits2_pos_iter_xO (p k : positive) :
  digits2_pos (Pos.iter xO p k) = (digits2_pos p + k)%positive.
Proof.
  induction k as [|k IH] using Pos.peano_ind.
  - simpl. lia.
  - rewrite Pos.iter_succ. simpl. rewrite IH. lia.
Qed.

Lemma Zpos_iter_xO (p k : positive) :
  Zpos (Pos.iter xO p k) = Zpos p * 2 ^ Zpos k.
Proof.
  induction k as [|k IH] using Pos.peano_ind.
  - simpl. lia.
  - rewrite Pos.iter_succ, Pos2Z.inj_succ, Z.pow_succ_r by lia.
    rewrite Pos2Z.inj_xO, IH. lia.
Qed.

Lemma digits2_pos_lt (p : positive) (n : Z) :
  0 <= n -> Zpos p < 2 ^ n -> Zpos (digits2_pos p) <= n.
Proof.
  revert n. induction p as [p IH|p IH|]; intros n Hn Hp; simpl.
  - destruct (Z.eq_dec n 0) as [->|]; [simpl in Hp; lia|].
    rewrite Pos2Z.inj_succ. 
    assert (Zpos (digits2_pos p) <= n - 1); [|lia].
    apply IH; [lia|]. replace n with (Z.succ (n - 1)) in Hp by lia.
    rewrite Z.pow_succ_r in Hp by lia. lia.
  - destruct (Z.eq_dec n 0) as [->|]; [simpl in Hp; lia|].
    rewrite Pos2Z.inj_succ. 
    assert (Zpos (digits2_pos p) <= n - 1); [|lia].
    apply IH; [lia|]. replace n with (Z.succ (n - 1)) in Hp by lia.
    rewrite Z.pow_succ_r in Hp by lia. lia.
  - destruct (Z.eq_dec n 0) as [->|]; [simpl in Hp; lia|lia].
Qed.

Lemma binary_round_aux_bounded (s : bool) (m : positive) (e : Z) :
  bounded prec emax m e = true ->
  binary_round_aux prec emax s (Zpos m) e loc_Exact = S754_finite s m e.
Proof.
  unfold bounded, canonical_mantissa. intros [H1 H2]%andb_prop.
  apply Z.eqb_eq in H1.
  unfold binary_round_aux, shr_fexp.
  cbn [Zdigits2 shr_record_of_loc]. rewrite H1, Z.sub_diag.
  cbn [shr shr_m loc_of_shr_record round_nearest_even Zdigits2 shr_record_of_loc].
  rewrite H1, Z.sub_diag. cbn [shr shr_m]. rewrite H2. reflexivity.
Qed.

Lemma binary_round_integer (s : bool) (p : positive) :
  Zpos p < 2 ^ 53 ->
  binary_round prec emax s p 0 =
    S754_finite s (Z.to_pos (Zpos p * 2 ^ (53 - Zpos (digits2_pos p))))
      (Zpos (digits2_pos p) - 53).
Proof.
  intros Hp.
  assert (Hd := digits2_pos_lt p 53 ltac:(lia) Hp).
  unfold binary_round.
  remember (digits2_pos p) as d eqn:Ed.
  assert (Hfexp : fexp prec emax (Zpos d + 0) = Zpos d - 53).
  { unfold fexp, emin, prec, emax. lia. }
  rewrite Hfexp. unfold shl_align.
  destruct (Zpos d - 53 - 0) as [|k|k] eqn:Hk; [| lia |].
  - assert (Zpos d = 53) as Hd53 by lia. rewrite Hd53. simpl Z.sub.
    rewrite Z.mul_1_r. simpl Z.to_pos.
    apply binary_round_aux_bounded.
    unfold bounded, canonical_mantissa. rewrite <- Ed, Hd53. reflexivity.
  - rewrite binary_round_aux_bounded.
    + f_equal. apply Pos2Z.inj. rewrite Zpos_iter_xO.
      rewrite Z2Pos.id by (apply Z.mul_pos_pos; [lia|apply Z.pow_pos_nonneg; lia]).
      f_equal. f_equal. lia.
    + unfold bounded, canonical_mantissa. rewrite digits2_pos_iter_xO, <- Ed.
      apply andb_true_intro. unfold fexp, emin, prec, emax.
      split; [apply Z.eqb_eq | apply Z.leb_le]; lia.
Qed.

Lemma to_Z_of_Z (z : Z) : 0 <= z < 2 ^ 63 -> Uint63.to_Z (Uint63.of_Z z) = z.
Proof.
  intros Hz. rewrite Uint63.of_Z_spec. apply Z.mod_small.
  change Uint63.wB with (2 ^ 63). lia.
Qed.

Lemma Prim2SF_number_of_Z_pos (p : positive) :
  Zpos p < 2 ^ 53 ->
  Prim2SF (number_of_Z (Zpos p)) =
    S754_finite false (Z.to_pos (Zpos p * 2 ^ (53 - Zpos (digits2_pos p))))
      (Zpos (digits2_pos p) - 53).
Proof.
  intros Hp. unfold number_of_Z.
  rewrite of_uint63_spec, to_Z_of_Z by lia.
  apply binary_round_integer, Hp.
Qed.

Lemma Prim2SF_number_of_Z_neg (p : positive) :
  Zpos p < 2 ^ 53 ->
  Prim2SF (number_of_Z (Zneg p)) =
    S754_finite true (Z.to_pos (Zpos p * 2 ^ (53 - Zpos (digits2_pos p))))
      (Zpos (digits2_pos p) - 53).
Proof.
  intros Hp. unfold number_of_Z.
  rewrite opp_spec, of_uint63_spec, to_Z_of_Z by lia.
  unfold binary_normalize. rewrite binary_round_integer by exact Hp.
  reflexivity.
Qed.

Lemma integer_value_number_of_Z (z : Z) :
  - 2 ^ 53 < z < 2 ^ 53 -> integer_value (number_of_Z z) = Some z.
Proof.
  intros Hz. unfold integer_value.
  assert (Hcase : forall (s : bool) (p : positive), Zpos p < 2 ^ 53 ->
    match
      (let e := Zpos (digits2_pos p) - 53 in
       let m := Z.to_pos (Zpos p * 2 ^ (53 - Zpos (digits2_pos p))) in
       if 0 <=? e
       then if e <=? 70 then Some (Z.shiftl (Zpos m) e) else None
       else let q := Z.shiftr (Zpos m) (- e) in
            if Z.shiftl q (- e) =? Zpos m then Some q else None)
    with
    | Some z => if z <? 9007199254740992
                then Some (if s then - z else z) else None
    | None => None
    end = Some (if s then - Zpos p else Zpos p)).
  { intros s p Hp. cbv zeta.
    assert (Hd := digits2_pos_lt p 53 ltac:(lia) Hp).
    assert (Hpow : 0 < 2 ^ (53 - Zpos (digits2_pos p))) by (apply Z.pow_pos_nonneg; lia).
    rewrite Z2Pos.id by (apply Z.mul_pos_pos; lia).
    destruct (Z.leb_spec 0 (Zpos (digits2_pos p) - 53)) as [H0|H0].
    - assert (Zpos (digits2_pos p) - 53 = 0) as -> by lia.
      assert (53 - Zpos (digits2_pos p) = 0) as -> by lia.
      change (0 <=? 70) with true. cbv iota.
      rewrite Z.shiftl_0_r, Z.pow_0_r, Z.mul_1_r.
      destruct (Z.ltb_spec (Zpos p) 9007199254740992); [reflexivity|lia].
    - replace (- (Zpos (digits2_pos p) - 53)) with (53 - Zpos (digits2_pos p)) by lia.
      rewrite Z.shiftr_div_pow2, Z.div_mul by lia.
      rewrite Z.shiftl_mul_pow2, Z.eqb_refl by lia.
      destruct (Z.ltb_spec (Zpos p) 9007199254740992); [reflexivity|lia]. }
  destruct z as [|p|p].
  - reflexivity.
  - rewrite Prim2SF_number_of_Z_pos by lia. apply (Hcase false). lia.
  - rewrite Prim2SF_number_of_Z_neg by lia. apply (Hcase true). lia.
Qed.

Lemma digits2_pos_bounds (p : positive) :
  2 ^ (Zpos (digits2_pos p) - 1) <= Zpos p < 2 ^ Zpos (digits2_pos p).
Proof.
  induction p as [p IH|p IH|]; simpl digits2_pos.
  - rewrite Pos2Z.inj_succ, Z.pow_succ_r by lia.
    replace (Z.succ (Zpos (digits2_pos p)) - 1) with (Z.succ (Zpos (digits2_pos p) - 1)) by lia.
    rewrite Z.pow_succ_r by lia. lia.
  - rewrite Pos2Z.inj_succ, Z.pow_succ_r by lia.
    replace (Z.succ (Zpos (digits2_pos p)) - 1) with (Z.succ (Zpos (digits2_pos p) - 1)) by lia.
    rewrite Z.pow_succ_r by lia. lia.
  - simpl. lia.
Qed.

Lemma canonical_compare (p q : positive) :
  Zpos p < 2 ^ 53 -> Zpos q < 2 ^ 53 ->
  match Zpos (digits2_pos p) - 53 ?= Zpos (digits2_pos q) - 53 with
  | Lt => Lt
  | Gt => Gt
  | Eq => Pos.compare_cont Eq
            (Z.to_pos (Zpos p * 2 ^ (53 - Zpos (digits2_pos p))))
            (Z.to_pos (Zpos q * 2 ^ (53 - Zpos (digits2_pos q))))
  end = (Zpos p ?= Zpos q).
Proof.
  intros Hp Hq.
  pose proof (digits2_pos_bounds p) as [Hp1 Hp2].
  pose proof (digits2_pos_bounds q) as [Hq1 Hq2].
  pose proof (digits2_pos_lt p 53 ltac:(lia) Hp) as Hdp.
  pose proof (digits2_pos_lt q 53 ltac:(lia) Hq) as Hdq.
  destruct (Z.compare_spec (Zpos (digits2_pos p) - 53) (Zpos (digits2_pos q) - 53)) as [He|He|He].
  - assert (digits2_pos p = digits2_pos q) as Hd by lia. rewrite Hd.
    fold (Pos.compare (Z.to_pos (Zpos p * 2 ^ (53 - Zpos (digits2_pos q))))
                      (Z.to_pos (Zpos q * 2 ^ (53 - Zpos (digits2_pos q))))).
    assert (0 < 2 ^ (53 - Zpos (digits2_pos q))) as Hpow by (apply Z.pow_pos_nonneg; lia).
    rewrite <- Z2Pos.inj_compare by (apply Z.mul_pos_pos; lia).
    destruct (Z.compare_spec (Zpos p) (Zpos q)) as [E|E|E].
    + rewrite E. apply Z.compare_refl.
    + apply Z.compare_lt_iff, Z.mul_lt_mono_pos_r; assumption.
    + apply Z.compare_gt_iff, Z.mul_lt_mono_pos_r; assumption.
  - symmetry. apply Z.compare_lt_iff.
    assert (2 ^ Zpos (digits2_pos p) <= 2 ^ (Zpos (digits2_pos q) - 1))
      by (apply Z.pow_le_mono_r; lia).
    lia.
  - symmetry. apply Z.compare_gt_iff.
    assert (2 ^ Zpos (digits2_pos q) <= 2 ^ (Zpos (digits2_pos p) - 1))
      by (apply Z.pow_le_mono_r; lia).
    lia.
Qed.

Lemma Prim2SF_number_of_Z (z : Z) :
  - 2 ^ 53 < z < 2 ^ 53 ->
  Prim2SF (number_of_Z z) =
    match z with
    | Z0 => S754_zero false
    | Zpos p => canonical false p
    | Zneg p => canonical true p
    end.
Proof.
  intros Hz. destruct z as [|p|p].
  - reflexivity.
  - apply Prim2SF_number_of_Z_pos. lia.
  - apply Prim2SF_number_of_Z_neg. lia.
Qed.

Lemma SFcompare_number_of_Z (a b : Z) :
  - 2 ^ 53 < a < 2 ^ 53 -> - 2 ^ 53 < b < 2 ^ 53 ->
  SFcompare (Prim2SF (number_of_Z a)) (Prim2SF (number_of_Z b)) = Some (a ?= b).
Proof.
  intros Ha Hb. rewrite !Prim2SF_number_of_Z by assumption.
  destruct a as [|p|p], b as [|q|q]; try reflexivity; unfold canonical, SFcompare.
  - f_equal. apply canonical_compare; lia.
  - f_equal. pose proof (canonical_compare p q ltac:(lia) ltac:(lia)) as C.
    change (Z.neg p ?= Z.neg q) with (CompOpp (Z.pos p ?= Z.pos q)).
    destruct (Z.pos (digits2_pos p) - 53 ?= Z.pos (digits2_pos q) - 53);
      rewrite <- C; reflexivity.
Qed.

Lemma ltb_number_of_Z (a b : Z) :
  - 2 ^ 53 < a < 2 ^ 53 -> - 2 ^ 53 < b < 2 ^ 53 ->
  (number_of_Z a <? number_of_Z b)%float = (a <? b).
Proof.
  intros Ha Hb. rewrite ltb_spec. unfold SFltb, Z.ltb.
  rewrite SFcompare_number_of_Z by assumption. reflexivity.
Qed.

Lemma leb_number_of_Z (a b : Z) :
  - 2 ^ 53 < a < 2 ^ 53 -> - 2 ^ 53 < b < 2 ^ 53 ->
  (number_of_Z a <=? number_of_Z b)%float = (a <=? b).
Proof.
  intros Ha Hb. rewrite leb_spec. unfold SFleb, Z.leb.
  rewrite SFcompare_number_of_Z by assumption. destruct (a ?= b); reflexivity.
Qed.

(** The range check of the query. *)
Lemma inRange_altitude (x : number) :
  _inRange x (-2000)%float 65617%float = ((-2000 <=? x) && (x <? 65617))%float.
Proof. reflexivity. Qed.

Lemma inRange_number_of_Z (z : Z) :
  - 2 ^ 53 < z < 2 ^ 53 ->
  _inRange (number_of_Z z) (-2000)%float 65617%float = (-2000 <=? z) && (z <? 65617).
Proof.
  intros Hz. rewrite inRange_altitude.
  change (-2000)%float with (number_of_Z (-2000)).
  change 65617%float with (number_of_Z 65617).
  rewrite leb_number_of_Z, ltb_number_of_Z by lia. reflexivity.
Qed.

(** Multiplying by 1 is exact. *)
Lemma Prim2SF_one : Prim2SF 1 = S754_finite false 4503599627370496 (-52).
Proof. reflexivity. Qed.

Lemma mul_1_r (x : number) : (x * 1)%float = x.
Proof.
  apply Prim2SF_inj. rewrite mul_spec, Prim2SF_one.
  pose proof (Prim2SF_valid x) as Hv.
  destruct (Prim2SF x) as [s|s| |s m e]; simpl; try (rewrite xorb_false_r; reflexivity);
    try reflexivity.
  rewrite xorb_false_r. simpl in Hv.
  pose proof Hv as Hb.
  unfold bounded, canonical_mantissa in Hv. apply andb_prop in Hv as [H1 H2].
  apply Z.eqb_eq in H1.
  rewrite Pos.mul_comm. 
  match goal with |- context [Z.pos ?a] =>
    let c := eval cbv [Pos.mul] in a in change a with c end.
  unfold binary_round_aux, shr_fexp. cbn [Zdigits2 digits2_pos shr_record_of_loc].
  match goal with |- context [fexp prec emax ?a] =>
    replace a with (Zpos (digits2_pos m) + e) by lia end.
  rewrite H1. replace (e - (e + -52)) with 52 by lia.
  cbn [shr].
  match goal with |- context [SpecFloat.iter_pos shr_1 52 ?r] =>
    let c := eval cbv in (SpecFloat.iter_pos shr_1 52 r) in
    change (SpecFloat.iter_pos shr_1 52 r) with c end.
  cbn [shr_m loc_of_shr_record round_nearest_even Zdigits2 shr_record_of_loc].
  replace (e + -52 + 52) with e by lia.
  rewrite H1, Z.sub_diag. cbn [shr shr_m]. rewrite H2. reflexivity.
Qed.

(** ** Loops *)

Lemma iterate_ext {S : Type} (body1 body2 : Z -> S -> S) (count : nat) (first : Z) (s : S) :
  (forall alt s, body1 alt s = body2 alt s) ->
  iterate count first body1 s = iterate count first body2 s.
Proof.
  intros Hext. revert first s.
  induction count as [|count IH]; intros first s; simpl; [reflexivity|].
  rewrite Hext. apply IH.
Qed.

Lemma iterate_all (P : Z -> bool) (count : nat) (first : Z) (b : bool) :
  iterate count first (fun alt b => b && P alt) b = true ->
  b = true /\ forall alt, first <= alt < first + Z.of_nat count -> P alt = true.
Proof.
  revert first b. induction count as [|count IH]; intros first b H.
  - split; [exact H|]. intros alt Halt. lia.
  - cbn [iterate] in H. apply IH in H as [[-> HP]%andb_prop Hrest].
    split; [reflexivity|]. intros alt Halt.
    destruct (Z.eq_dec alt first) as [->|]; [exact HP|]. apply Hrest. lia.
Qed.

Lemma all_alt_spec (first count : Z) (P : Z -> bool) :
  0 <= count -> all_alt first count P = true ->
  forall alt, first <= alt < first + count -> P alt = true.
Proof.
  intros Hc H alt Halt. apply iterate_all in H as [_ H]. apply H.
  rewrite Z2Nat.id by exact Hc. exact Halt.
Qed.

(** Counting in Numbers, as the loops do with [alt++], visits the Numbers
    of the integers counted here. *)
Lemma counter_steps :
  all_alt (-2000) (65617 + 1 - -2000)
    (fun alt => PrimFloat.Leibniz.eqb (number_of_Z alt + 1)%float (number_of_Z (alt + 1))) = true.
Proof. vm_compute. reflexivity. Qed.

Lemma number_of_Z_succ (alt : Z) :
  -2000 <= alt <= 65617 -> (number_of_Z alt + 1)%float = number_of_Z (alt + 1).
Proof.
  intros Halt. apply Leibniz.eqb_spec.
  apply (all_alt_spec (-2000) (65617 + 1 - -2000) _ ltac:(lia) counter_steps). lia.
Qed.

Global Instance pressure_field : TableField _pressureGradient set_pressureGradient.
Proof. split; [reflexivity | reflexivity | intros []; reflexivity]. Qed.

Global Instance temperature_field :
  TableField _temperatureGradient set_temperatureGradient.
Proof. split; [reflexivity | reflexivity | intros []; reflexivity]. Qed.

Global Instance density_field : TableField _densityGradient set_densityGradient.
Proof. split; [reflexivity | reflexivity | intros []; reflexivity]. Qed.

Section Field.
Context {M : Type} (get : M -> table) (set : table -> M -> M) `{!TableField get set}.
Context (key : Z -> property_key) (val : M -> Z -> value).
Hypothesis val_set : forall g m alt, val (set g m) alt = val m alt.

(** A loop whose body assigns [this.field[key alt] = val this alt] only
    changes that field, and the values it stores can be read off the state
    the loop starts from. *)
Lemma iterate_field (count : nat) (first : Z) (m : M) :
  iterate count first (fun alt m => set (<[key alt := val m alt]> (get m)) m) m =
  set (iterate count first (fun alt g => <[key alt := val m alt]> g) (get m)) m.
Proof.
  revert first m. induction count as [|count IH]; intros first m; simpl.
  - symmetry. apply set_get.
  - rewrite IH, get_set, set_set. f_equal.
    apply iterate_ext. intros alt g. rewrite val_set. reflexivity.
Qed.

Lemma for_alt_field (first count : Z) (m : M) :
  for_alt first count (fun alt m => set (<[key alt := val m alt]> (get m)) m) m =
  set (for_alt first count (fun alt g => <[key alt := val m alt]> g) (get m)) m.
Proof. apply iterate_field. Qed.

End Field.

Lemma lookup_iterate_insert (key : Z -> property_key) (v : Z -> value)
    (count : nat) (first : Z) (g : table) (k : property_key) :
  (forall alt, first <= alt < first + Z.of_nat count -> key alt = IntegerKey alt) ->
  iterate count first (fun alt g => <[key alt := v alt]> g) g !! k =
    match k with
    | IntegerKey z =>
        if decide (first <= z < first + Z.of_nat count) then Some (v z) else g !! k
    | StringKey _ => g !! k
    end.
Proof.
  revert first g. induction count as [|count IH]; intros first g Hkey.
  - simpl. destruct k as [z|s]; [|reflexivity]. case_decide; [lia|reflexivity].
  - cbn [iterate]. rewrite IH by (intros alt Halt; apply Hkey; lia).
    rewrite (Hkey first) by lia.
    destruct k as [z|s].
    + repeat case_decide; try lia; try reflexivity.
      * assert (z = first) as -> by lia. apply lookup_insert_eq.
      * apply lookup_insert_ne. intros [=]. lia.
    + apply lookup_insert_ne. discriminate.
Qed.

Lemma lookup_for_alt_insert (key : Z -> property_key) (v : Z -> value)
    (first count : Z) (g : table) (k : property_key) :
  0 <= count ->
  (forall alt, first <= alt < first + count -> key alt = IntegerKey alt) ->
  for_alt first count (fun alt g => <[key alt := v alt]> g) g !! k =
    match k with
    | IntegerKey z =>
        if decide (first <= z < first + count) then Some (v z) else g !! k
    | StringKey _ => g !! k
    end.
Proof.
  intros Hcount Hkey. unfold for_alt.
  rewrite lookup_iterate_insert by (rewrite Z2Nat.id by exact Hcount; exact Hkey).
  rewrite Z2Nat.id by exact Hcount. reflexivity.
Qed.

(** ** The gradients *)

Section Gradients.
Context (E : engine).

Lemma ToPropertyKey_number_of_Z (z : Z) :
  - 2 ^ 53 < z < 2 ^ 53 -> ToPropertyKey E (number_of_Z z) = IntegerKey z.
Proof.
  intros Hz. unfold ToPropertyKey. rewrite integer_value_number_of_Z by exact Hz.
  reflexivity.
Qed.

Lemma ToPropertyKey_not_integer (x : number) :
  integer_value x = None -> ToPropertyKey E x = StringKey (NumberToString E x).
Proof. intros Hx. unfold ToPropertyKey. rewrite Hx. reflexivity. Qed.

Lemma _initPressureGradient_frame (this : AtmosphereModel) :
  exists g, _initPressureGradient E this = set_pressureGradient g this.
Proof.
  unfold _initPressureGradient. cbv zeta.
  rewrite !(for_alt_field _pressureGradient set_pressureGradient) by reflexivity.
  eexists. reflexivity.
Qed.

Lemma _initPressureGradient_lookup (this : AtmosphereModel) (k : property_key) :
  _pressureGradient (_initPressureGradient E this) !! k = pressure_entry E this k.
Proof.
  unfold _initPressureGradient. cbv zeta.
  rewrite !(for_alt_field _pressureGradient set_pressureGradient) by reflexivity.
  cbn [_pressureGradient set_pressureGradient _seaLevelPressure _seaLevelTemperature].
  rewrite !lookup_for_alt_insert
    by (try lia; intros alt Halt; apply ToPropertyKey_number_of_Z; lia).
  unfold pressure_entry. destruct k as [z|s].
  - rewrite lookup_empty. repeat case_decide; try lia; reflexivity.
  - apply lookup_empty.
Qed.

Lemma _initTemperatureGradient_frame (this : AtmosphereModel) :
  exists g, _initTemperatureGradient E this = set_temperatureGradient g this.
Proof.
  unfold _initTemperatureGradient. cbv zeta.
  rewrite !(for_alt_field _temperatureGradient set_temperatureGradient) by reflexivity.
  eexists. reflexivity.
Qed.

Lemma _initTemperatureGradient_lookup (this : AtmosphereModel) (k : property_key) :
  _temperatureGradient (_initTemperatureGradient E this) !! k = temperature_entry E this k.
Proof.
  unfold _initTemperatureGradient. cbv zeta.
  rewrite !(for_alt_field _temperatureGradient set_temperatureGradient) by reflexivity.
  cbn [_temperatureGradient set_temperatureGradient].
  rewrite !lookup_for_alt_insert
    by (try lia; intros alt Halt; apply ToPropertyKey_number_of_Z; lia).
  unfold temperature_entry. destruct k as [z|s].
  - rewrite lookup_empty. repeat case_decide; try lia; reflexivity.
  - apply lookup_empty.
Qed.

Lemma _initDensityGradient_frame (this : AtmosphereModel) :
  exists g, _initDensityGradient E this = set_densityGradient g this.
Proof.
  unfold _initDensityGradient. cbv zeta.
  rewrite (for_alt_field _densityGradient set_densityGradient
             (fun alt => ToPropertyKey E (number_of_Z alt))
             (fun this alt => VNum (density E this (ToPropertyKey E (number_of_Z alt)))))
    by reflexivity.
  eexists. reflexivity.
Qed.

Lemma _initDensityGradient_lookup (this : AtmosphereModel) (k : property_key) :
  _densityGradient (_initDensityGradient E this) !! k = density_entry E this k.
Proof.
  unfold _initDensityGradient. cbv zeta.
  rewrite (for_alt_field _densityGradient set_densityGradient
             (fun alt => ToPropertyKey E (number_of_Z alt))
             (fun this alt => VNum (density E this (ToPropertyKey E (number_of_Z alt)))))
    by reflexivity.
  cbn [_densityGradient set_densityGradient].
  rewrite lookup_for_alt_insert
    by (try lia; intros alt Halt; apply ToPropertyKey_number_of_Z; lia).
  unfold density_entry. destruct k as [z|s].
  - rewrite lookup_empty. case_decide as Hz; case_decide; try lia; [|reflexivity].
    rewrite ToPropertyKey_number_of_Z by lia. reflexivity.
  - apply lookup_empty.
Qed.

End Gradients.

(** ** Construction *)

(** The builders run over some sixty thousand altitudes: they are reasoned
    about through the lemmas above, never unfolded by [simpl]. *)

Arguments _initPressureGradient : simpl never.
Arguments _initTemperatureGradient : simpl never.
Arguments _initDensityGradient : simpl never.

Lemma Return_inj {A : Type} (a b : A) : Return a = Return b -> a = b.
Proof. intros [=]. assumption. Qed.

Section Construction.
Context (E : engine) (I : imports).

(** The instance [new] returns, when it returns one: only the wind vector
    depends on the input. *)
Lemma new_Return (data : value) (this : AtmosphereModel) :
  new E I data = Return this ->
  exists wind,
    this =
      _initDensityGradient E
        (_initTemperatureGradient E
           (_initPressureGradient E
              {| _seaLevelTemperature := VStr "calculated new value";
                 _seaLevelPressure :=
                   ENVIRONMENT_get I "DEFAULT_SEA_LEVEL_PRESSURE_INHG";
                 _seaLevelWindVector := wind;
                 _densityGradient := ∅;
                 _pressureGradient := ∅;
                 _temperatureGradient := ∅ |})).
Proof.
  unfold new, _init, _initWindFromSurfaceWind, _initTemperatureFromSurfaceTemperature.
  unfold mbind, result_bind.
  destruct (Get data "surfaceTemperature") as [surfaceTemperature|]; [|discriminate].
  destruct (Get data "surfaceElevation"); [|discriminate].
  destruct (Get data "surfaceWind") as [surfaceWind|]; [|discriminate].
  destruct (Get surfaceWind "angle") as [angle|]; [|discriminate].
  destruct (degreesToRadians I angle) as [radians|]; [|discriminate].
  destruct (vectorize_2d I radians) as [direction|]; [|discriminate].
  destruct (Get surfaceWind "speed") as [speed|]; [|discriminate].
  destruct (vscale I direction speed) as [wind|]; [|discriminate].
  intros H%Return_inj. exists wind. rewrite <- H. clear H.
  unfold ENVIRONMENT_get.
  destruct (is_undefined surfaceTemperature), (is_undefined surfaceWind);
    cbv beta iota zeta delta [set_seaLevelTemperature set_seaLevelWindVector
      _seaLevelTemperature _seaLevelPressure _seaLevelWindVector
      _densityGradient _pressureGradient _temperatureGradient]; reflexivity.
Qed.
Lemma new_fields (data : value) (this : AtmosphereModel) :
  new E I data = Return this ->
  _seaLevelTemperature this = VStr "calculated new value" /\
  _seaLevelPressure this = ENVIRONMENT_get I "DEFAULT_SEA_LEVEL_PRESSURE_INHG" /\
  (forall k, _pressureGradient this !! k = pressure_entry E this k) /\
  (forall k, _temperatureGradient this !! k = temperature_entry E this k) /\
  (forall k, _densityGradient this !! k = density_entry E this k).
Proof.
  intros [wind ->]%new_Return.
  match goal with |- context [_initPressureGradient E ?b] => set (base := b) end.
  pose proof (_initPressureGradient_lookup E base) as Lp.
  destruct (_initPressureGradient_frame E base) as [p Hp].
  revert Lp. rewrite Hp. clear Hp. intros Lp.
  set (this1 := set_pressureGradient p base) in *.
  pose proof (_initTemperatureGradient_lookup E this1) as Lt.
  destruct (_initTemperatureGradient_frame E this1) as [t Ht].
  revert Lt. rewrite Ht. clear Ht. intros Lt.
  set (this2 := set_temperatureGradient t this1) in *.
  pose proof (_initDensityGradient_lookup E this2) as Ld.
  destruct (_initDensityGradient_frame E this2) as [d Hd].
  revert Ld. rewrite Hd. clear Hd. intros Ld.
  repeat split; [exact Lp | exact Lt | exact Ld].
Qed.
End Construction.

(** ** What the placeholder does to the gradients *)

Section Placeholder.
Context (E : engine).

Lemma ToNumber_placeholder : ToNumber E (VStr "calculated new value") = nan.
Proof. reflexivity. Qed.

Lemma lapse_placeholder (this : AtmosphereModel) (alt : number) :
  _seaLevelTemperature this = VStr "calculated new value" ->
  lapse E this alt = nan.
Proof.
  intros H. unfold lapse. rewrite H, ToNumber_placeholder. apply sub_nan_l.
Qed.

Lemma barometric_placeholder (b0ReferencePressure : value) (alt : number) :
  barometric E b0ReferencePressure (VStr "calculated new value") alt = nan.
Proof.
  unfold barometric. rewrite ToNumber_placeholder, sub_nan_l, div_nan_l.
  change (exponentiate E nan 5.255876329%float) with nan. apply mul_nan_r.
Qed.

Lemma isothermal_nan (alt : number) : isothermal E nan alt = nan.
Proof. unfold isothermal. apply mul_nan_l. Qed.

End Placeholder.

(** Hence every entry of a constructed model is [NaN]. *)
Section AfterConstruction.
Context (E : engine) (I : imports).

Lemma new_temperature_entries (data : value) (this : AtmosphereModel) (z : Z) :
  new E I data = Return this -> -2000 <= z <= 65617 ->
  _temperatureGradient this !! IntegerKey z = Some (VNum nan).
Proof.
  intros (HT & _ & _ & Lt & _)%new_fields Hz.
  rewrite Lt. unfold temperature_entry.
  rewrite !lapse_placeholder by exact HT.
  repeat case_decide; try lia; reflexivity.
Qed.

Lemma new_pressure_entries (data : value) (this : AtmosphereModel) (z : Z) :
  new E I data = Return this -> -2000 <= z <= 65617 ->
  _pressureGradient this !! IntegerKey z = Some (VNum nan).
Proof.
  intros (HT & _ & Lp & _)%new_fields Hz.
  rewrite Lp. unfold pressure_entry.
  rewrite HT, !barometric_placeholder, isothermal_nan.
  repeat case_decide; try lia; reflexivity.
Qed.

Lemma new_density_entries (data : value) (this : AtmosphereModel) (z : Z) :
  new E I data = Return this -> -2000 <= z <= 65617 ->
  _densityGradient this !! IntegerKey z = Some (VNum nan).
Proof.
  intros Hnew Hz.
  pose proof (new_pressure_entries data this z Hnew Hz) as Hp.
  pose proof (new_temperature_entries data this z Hnew Hz) as Ht.
  destruct (new_fields E I data this Hnew) as (_ & _ & _ & _ & Ld).
  rewrite Ld. unfold density_entry, density, read.
  rewrite Hp, Ht. cbn [default ToNumber].
  rewrite mul_nan_r, div_nan_l. case_decide; [reflexivity | lia].
Qed.
End AfterConstruction.

(** The sample input is accepted. *)
Lemma Sample_new : new Sample.E Sample.I Sample.data = Return Sample.model.
Proof.
  unfold new, _init, _initWindFromSurfaceWind,
    _initTemperatureFromSurfaceTemperature, Sample.model.
  cbv beta iota zeta delta
    [mbind result_bind Get own_property Sample.data String.eqb Ascii.eqb
     Bool.eqb is_undefined Sample.I degreesToRadians vectorize_2d vscale
     ENVIRONMENT ENVIRONMENT_get set_seaLevelTemperature
     set_seaLevelWindVector _seaLevelTemperature _seaLevelPressure
     _seaLevelWindVector _densityGradient _pressureGradient
     _temperatureGradient].
  reflexivity.
Qed.


(** ** The query *)

Lemma ltb_leb (a b : number) : (a <? b)%float = true -> (a <=? b)%float = true.
Proof.
  rewrite ltb_spec, leb_spec. unfold SFltb, SFleb.
  destruct (SFcompare (Prim2SF a) (Prim2SF b)) as [[]|]; congruence.
Qed.

Lemma NumberToString_number_of_Z (E : engine) (z : Z) :
  - 2 ^ 53 < z < 2 ^ 53 -> NumberToString E (number_of_Z z) = pretty z.
Proof.
  intros Hz. unfold NumberToString. rewrite integer_value_number_of_Z by exact Hz.
  reflexivity.
Qed.

(** C1.  [getTemperatureAtActualAltitude(altitude)] returns
    [_temperatureGradient[altitude]] for every integer altitude with
    -2000 <= altitude < 65617 and throws the out-of-range [TypeError] for
    every other altitude: for every other integer (the message names it),
    and for every Number that fails [-2000 <= x && x < 65617], [NaN] and the
    infinities included.  In particular -2001 and 65617 throw and 65616
    returns its entry. *)
Theorem getTemperatureAtActualAltitude_range (E : engine) (this : AtmosphereModel) :
  (forall z : Z, -2000 <= z < 65617 ->
     getTemperatureAtActualAltitude E this (number_of_Z z) =
       Return (read (_temperatureGradient this) (IntegerKey z)))
  /\ (forall z : Z, - 2 ^ 53 < z < 2 ^ 53 -> ~ (-2000 <= z < 65617) ->
     getTemperatureAtActualAltitude E this (number_of_Z z) =
       Throw (TypeError
         ("Expected altitude within -2000 ft to 65617 ft, but received altitude of "
          +:+ pretty z)))
  /\ (forall x : number, ((-2000 <=? x) && (x <? 65617))%float = false ->
     getTemperatureAtActualAltitude E this x =
       Throw (TypeError (out_of_range_message E x)))
  /\ getTemperatureAtActualAltitude E this (-2001)%float =
       Throw (TypeError
         "Expected altitude within -2000 ft to 65617 ft, but received altitude of -2001")
  /\ getTemperatureAtActualAltitude E this 65617%float =
       Throw (TypeError
         "Expected altitude within -2000 ft to 65617 ft, but received altitude of 65617")
  /\ getTemperatureAtActualAltitude E this 65616%float =
       Return (read (_temperatureGradient this) (IntegerKey 65616)).
Proof.
  assert (Hin : forall z : Z, -2000 <= z < 65617 ->
     getTemperatureAtActualAltitude E this (number_of_Z z) =
       Return (read (_temperatureGradient this) (IntegerKey z))).
  { intros z Hz. unfold getTemperatureAtActualAltitude.
    rewrite inRange_number_of_Z, ToPropertyKey_number_of_Z by lia.
    destruct (Z.leb_spec (-2000) z), (Z.ltb_spec z 65617); try lia. reflexivity. }
  assert (Hout : forall z : Z, - 2 ^ 53 < z < 2 ^ 53 -> ~ (-2000 <= z < 65617) ->
     getTemperatureAtActualAltitude E this (number_of_Z z) =
       Throw (TypeError
         ("Expected altitude within -2000 ft to 65617 ft, but received altitude of "
          +:+ pretty z))).
  { intros z Hz Hout. unfold getTemperatureAtActualAltitude, out_of_range_message.
    rewrite inRange_number_of_Z, NumberToString_number_of_Z by lia.
    destruct (Z.leb_spec (-2000) z), (Z.ltb_spec z 65617); try lia; reflexivity. }
  split; [|split; [|split; [|split; [|split]]]].
  - exact Hin.
  - exact Hout.
  - intros x Hx. unfold getTemperatureAtActualAltitude.
    rewrite inRange_altitude, Hx. reflexivity.
  - apply (Hout (-2001)); lia.
  - apply (Hout 65617); lia.
  - apply (Hin 65616); lia.
Qed.

Lemma getTemperatureAtActualAltitude_range_witness :
  -2000 <= 0 < 65617
  /\ getTemperatureAtActualAltitude Sample.E Sample.model (number_of_Z 0) =
       Return (read (_temperatureGradient Sample.model) (IntegerKey 0)).
Proof.
  split; [lia|].
  apply (proj1 (getTemperatureAtActualAltitude_range Sample.E Sample.model) 0). lia.
Defined.

(** C10.  On a constructed model, an altitude that is not an integer and
    lies strictly between -2000 and 65617 passes the range check, and the
    query returns [undefined]: the key it converts to is not among the
    integer keys of the gradient. *)
Theorem getTemperatureAtActualAltitude_between_integers
    (E : engine) (I : imports) (data : value) (this : AtmosphereModel) (x : number) :
  new E I data = Return this ->
  integer_value x = None ->
  (-2000 <? x)%float = true ->
  (x <? 65617)%float = true ->
  _inRange x (-2000)%float 65617%float = true
  /\ getTemperatureAtActualAltitude E this x = Return VUndefined.
Proof.
  intros Hnew Hx Hlo Hhi.
  destruct (new_fields E I data this Hnew) as (_ & _ & _ & Lt & _).
  assert (Hrange : _inRange x (-2000)%float 65617%float = true).
  { rewrite inRange_altitude, (ltb_leb _ _ Hlo), Hhi. reflexivity. }
  split; [exact Hrange|].
  unfold getTemperatureAtActualAltitude. rewrite Hrange.
  rewrite ToPropertyKey_not_integer by exact Hx.
  unfold read. rewrite Lt. reflexivity.
Qed.

Lemma getTemperatureAtActualAltitude_between_integers_witness :
  new Sample.E Sample.I Sample.data = Return Sample.model
  /\ integer_value 0.5%float = None
  /\ (-2000 <? 0.5)%float = true
  /\ (0.5 <? 65617)%float = true
  /\ getTemperatureAtActualAltitude Sample.E Sample.model 0.5%float = Return VUndefined.
Proof.
  split; [exact Sample_new|]. split; [reflexivity|]. split; [reflexivity|].
  split; [reflexivity|].
  apply (getTemperatureAtActualAltitude_between_integers
           Sample.E Sample.I Sample.data Sample.model 0.5%float);
    [exact Sample_new | reflexivity | reflexivity | reflexivity].
Defined.

(** ** Surface conditions *)

(** C2.  What the code does where the claim expects the standard sea-level
    temperature: whenever construction returns a model, with
    [surfaceTemperature] absent or not, [_seaLevelTemperature] is the string
    ['calculated new value'], which is no Number and converts to [NaN];
    the constant read from [ENVIRONMENT] is overwritten. *)
Theorem new_seaLevelTemperature_is_placeholder
    (E : engine) (I : imports) (data : value) (this : AtmosphereModel) :
  Get data "surfaceTemperature" = Return VUndefined ->
  new E I data = Return this ->
  _seaLevelTemperature this = VStr "calculated new value"
  /\ (forall kelvin : number, _seaLevelTemperature this <> VNum kelvin)
  /\ ToNumber E (_seaLevelTemperature this) = nan.
Proof.
  intros _ (HT & _)%new_fields. rewrite HT. repeat split.
  intros kelvin. discriminate.
Qed.

Lemma new_seaLevelTemperature_is_placeholder_witness :
  Get Sample.data "surfaceTemperature" = Return VUndefined
  /\ new Sample.E Sample.I Sample.data = Return Sample.model
  /\ _seaLevelTemperature Sample.model = VStr "calculated new value".
Proof.
  split; [reflexivity|]. split; [exact Sample_new|].
  apply (new_seaLevelTemperature_is_placeholder
           Sample.E Sample.I Sample.data Sample.model);
    [reflexivity | exact Sample_new].
Defined.

(** C3.  What the code does where the claim expects the default wind
    vector: when [data.surfaceWind] is absent, construction stores the
    default and then reads [surfaceWind.angle] all the same, so [new]
    throws and no model is returned. *)
Theorem new_without_surfaceWind_throws (E : engine) (I : imports) (data : value) :
  Get data "surfaceWind" = Return VUndefined ->
  new E I data = Throw (CannotReadProperty VUndefined "angle").
Proof.
  intros Hwind. unfold new, _init.
  destruct data; try discriminate; cbn [Get] in *; apply Return_inj in Hwind;
    unfold mbind, result_bind; try rewrite Hwind; reflexivity.
Qed.

Lemma new_without_surfaceWind_throws_witness :
  Get (VObj []) "surfaceWind" = Return VUndefined
  /\ new Sample.E Sample.I (VObj []) = Throw (CannotReadProperty VUndefined "angle").
Proof.
  split; [reflexivity|].
  apply (new_without_surfaceWind_throws Sample.E Sample.I (VObj [])). reflexivity.
Defined.

(** ** The gradients of a constructed model *)

(** C4.  Whatever instance [_initDensityGradient] runs on, it leaves the
    pressure and temperature gradients as they are, and at every integer
    altitude from -2000 to 65617 the entry of the density gradient it builds
    is the Number [11.796888418 * pressure / temperature], computed in this
    order from the entries of those two gradients at that altitude (read as
    the code reads them, an absent entry being [undefined]).  Hence, after
    construction, the pressure and temperature gradients hold an entry at
    each of these altitudes and the entry of the density gradient is that
    Number computed from them. *)
Theorem density_consistency (E : engine) :
  (forall (this : AtmosphereModel) (z : Z),
     -2000 <= z <= 65617 ->
     let after := _initDensityGradient E this in
     _pressureGradient after = _pressureGradient this
     /\ _temperatureGradient after = _temperatureGradient this
     /\ _densityGradient after !! IntegerKey z =
          Some (VNum (11.796888418
                      * ToNumber E (read (_pressureGradient after) (IntegerKey z))
                      / ToNumber E (read (_temperatureGradient after) (IntegerKey z)))%float))
  /\ (forall (I : imports) (data : value) (this : AtmosphereModel) (z : Z),
       new E I data = Return this ->
       -2000 <= z <= 65617 ->
       exists pressure temperature : value,
         _pressureGradient this !! IntegerKey z = Some pressure
         /\ _temperatureGradient this !! IntegerKey z = Some temperature
         /\ _densityGradient this !! IntegerKey z =
              Some (VNum (11.796888418 * ToNumber E pressure
                          / ToNumber E temperature)%float)).
Proof.
  split.
  - intros this z Hz. cbv zeta.
    pose proof (_initDensityGradient_lookup E this (IntegerKey z)) as Ld.
    destruct (_initDensityGradient_frame E this) as [g Hg].
    revert Ld. rewrite Hg. cbn [_pressureGradient _temperatureGradient
      _densityGradient set_densityGradient]. intros Ld.
    split; [reflexivity|]. split; [reflexivity|].
    rewrite Ld. unfold density_entry, density.
    case_decide; [reflexivity | lia].
  - intros I data this z Hnew Hz.
    pose proof (new_pressure_entries E I data this z Hnew Hz) as Hp.
    pose proof (new_temperature_entries E I data this z Hnew Hz) as Ht.
    destruct (new_fields E I data this Hnew) as (_ & _ & _ & _ & Ld).
    eexists _, _. split; [exact Hp|]. split; [exact Ht|].
    rewrite Ld. unfold density_entry, density, read. rewrite Hp, Ht.
    case_decide; [reflexivity | lia].
Qed.

Lemma density_consistency_witness :
  -2000 <= 0 <= 65617
  /\ _densityGradient (_initDensityGradient Sample.E Reading.instance)
       !! IntegerKey 0
     = Some (VNum (11.796888418 * 2 / 4)%float)
  /\ new Sample.E Sample.I Sample.data = Return Sample.model
  /\ exists pressure temperature : value,
       _pressureGradient Sample.model !! IntegerKey 0 = Some pressure
       /\ _temperatureGradient Sample.model !! IntegerKey 0 = Some temperature
       /\ _densityGradient Sample.model !! IntegerKey 0 =
            Some (VNum (11.796888418 * ToNumber Sample.E pressure
                        / ToNumber Sample.E temperature)%float).
Proof.
  destruct (density_consistency Sample.E) as [Hany Hnew].
  split; [lia|]. split.
  - destruct (Hany Reading.instance 0 ltac:(lia)) as (Hp & Ht & Hd).
    rewrite Hp, Ht in Hd. exact Hd.
  - split; [exact Sample_new|].
    apply (Hnew Sample.I Sample.data Sample.model 0); [exact Sample_new | lia].
Defined.

Lemma pressure_entry_is_Some (E : engine) (this : AtmosphereModel) (k : property_key) :
  is_Some (pressure_entry E this k) <-> altitude_key k.
Proof.
  unfold pressure_entry, altitude_key. destruct k as [z|s].
  - destruct (decide (-2000 <= z < 36089)); [|destruct (decide (36089 <= z <= 65617))].
    + split; [intros _; exists z; split; [reflexivity|lia] | intros _; eexists; reflexivity].
    + split; [intros _; exists z; split; [reflexivity|lia] | intros _; eexists; reflexivity].
    + split; [intros []%is_Some_None | intros (z' & [= <-] & Hz'); lia].
  - split; [intros []%is_Some_None | intros (z' & [=] & _)].
Qed.

Lemma temperature_entry_is_Some (E : engine) (this : AtmosphereModel) (k : property_key) :
  is_Some (temperature_entry E this k) <-> altitude_key k.
Proof.
  unfold temperature_entry, altitude_key. destruct k as [z|s].
  - destruct (decide (-2000 <= z < 36089)); [|destruct (decide (36089 <= z <= 65617))].
    + split; [intros _; exists z; split; [reflexivity|lia] | intros _; eexists; reflexivity].
    + split; [intros _; exists z; split; [reflexivity|lia] | intros _; eexists; reflexivity].
    + split; [intros []%is_Some_None | intros (z' & [= <-] & Hz'); lia].
  - split; [intros []%is_Some_None | intros (z' & [=] & _)].
Qed.

Lemma density_entry_is_Some (E : engine) (this : AtmosphereModel) (k : property_key) :
  is_Some (density_entry E this k) <-> altitude_key k.
Proof.
  unfold density_entry, altitude_key. destruct k as [z|s].
  - destruct (decide (-2000 <= z <= 65617)).
    + split; [intros _; exists z; split; [reflexivity|lia] | intros _; eexists; reflexivity].
    + split; [intros []%is_Some_None | intros (z' & [= <-] & Hz'); lia].
  - split; [intros []%is_Some_None | intros (z' & [=] & _)].
Qed.

(** C5.  After construction, each of the three gradients has an entry
    exactly at the integer keys -2000 .. 65617 (a table holds one entry per
    key), that entry is a Number, and the three tables have the same set of
    keys. *)
Theorem gradients_share_domain
    (E : engine) (I : imports) (data : value) (this : AtmosphereModel) :
  new E I data = Return this ->
  (forall k, is_Some (_pressureGradient this !! k) <-> altitude_key k)
  /\ (forall k, is_Some (_temperatureGradient this !! k) <-> altitude_key k)
  /\ (forall k, is_Some (_densityGradient this !! k) <-> altitude_key k)
  /\ (forall z, -2000 <= z <= 65617 ->
        exists pressure temperature density : number,
          _pressureGradient this !! IntegerKey z = Some (VNum pressure)
          /\ _temperatureGradient this !! IntegerKey z = Some (VNum temperature)
          /\ _densityGradient this !! IntegerKey z = Some (VNum density))
  /\ dom (_pressureGradient this) = dom (_temperatureGradient this)
  /\ dom (_temperatureGradient this) = dom (_densityGradient this).
Proof.
  intros Hnew.
  destruct (new_fields E I data this Hnew) as (_ & _ & Lp & Lt & Ld).
  assert (Hp : forall k, is_Some (_pressureGradient this !! k) <-> altitude_key k)
    by (intros k; rewrite Lp; apply pressure_entry_is_Some).
  assert (Ht : forall k, is_Some (_temperatureGradient this !! k) <-> altitude_key k)
    by (intros k; rewrite Lt; apply temperature_entry_is_Some).
  assert (Hd : forall k, is_Some (_densityGradient this !! k) <-> altitude_key k)
    by (intros k; rewrite Ld; apply density_entry_is_Some).
  split; [exact Hp|]. split; [exact Ht|]. split; [exact Hd|]. split.
  - intros z Hz. exists nan, nan, nan.
    rewrite (new_pressure_entries E I data this z Hnew Hz).
    rewrite (new_temperature_entries E I data this z Hnew Hz).
    rewrite (new_density_entries E I data this z Hnew Hz). repeat split.
  - split; apply set_eq; intros k; rewrite !elem_of_dom.
    + rewrite Hp, Ht. reflexivity.
    + rewrite Ht, Hd. reflexivity.
Qed.

Lemma gradients_share_domain_witness :
  new Sample.E Sample.I Sample.data = Return Sample.model
  /\ dom (_pressureGradient Sample.model) = dom (_temperatureGradient Sample.model)
  /\ dom (_temperatureGradient Sample.model) = dom (_densityGradient Sample.model).
Proof.
  split; [exact Sample_new|].
  apply (gradients_share_domain Sample.E Sample.I Sample.data Sample.model).
  exact Sample_new.
Defined.

(** C6.  Whatever the sea-level temperature and pressure of the instance,
    the two layers meet at 36089 ft.  The expression of the first
    temperature loop, taken at 36089, is the constant of the second loop,
    and that is the entry [_initTemperatureGradient] stores at 36089.  The
    expression of the second pressure loop, taken at 36089 (the reference
    pressure times [Math.E ** -0], that is times 1), is the expression of the
    first loop taken at 36089, and that is the entry [_initPressureGradient]
    stores at 36089. *)
Theorem boundary_continuity (E : engine) (this : AtmosphereModel) :
  lapse E this (number_of_Z 36089) = lapse E this 36089%float
  /\ _temperatureGradient (_initTemperatureGradient E this) !! IntegerKey 36089 =
       Some (VNum (lapse E this (number_of_Z 36089)))
  /\ isothermal E
       (barometric E (_seaLevelPressure this) (_seaLevelTemperature this) 36089%float)
       (number_of_Z 36089) =
     barometric E (_seaLevelPressure this) (_seaLevelTemperature this)
       (number_of_Z 36089)
  /\ _pressureGradient (_initPressureGradient E this) !! IntegerKey 36089 =
       Some (VNum (barometric E (_seaLevelPressure this) (_seaLevelTemperature this)
                     (number_of_Z 36089))).
Proof.
  assert (Hiso : forall b1 : number, isothermal E b1 (number_of_Z 36089) = b1).
  { intros b1. unfold isothermal.
    change (exponentiate E Math_E (- 0.0000480634303 * (number_of_Z 36089 - 36089))%float)
      with 1%float.
    apply mul_1_r. }
  split; [reflexivity|]. split; [|split].
  - rewrite _initTemperatureGradient_lookup. unfold temperature_entry.
    destruct (decide (-2000 <= 36089 < 36089)) as [?|_]; [lia|].
    destruct (decide (36089 <= 36089 <= 65617)) as [_|?]; [reflexivity|lia].
  - apply Hiso.
  - rewrite _initPressureGradient_lookup. unfold pressure_entry.
    destruct (decide (-2000 <= 36089 < 36089)) as [?|_]; [lia|].
    destruct (decide (36089 <= 36089 <= 65617)) as [_|?]; [|lia].
    rewrite Hiso. reflexivity.
Qed.

(** C7.  What the code does where the claim expects a strictly decreasing
    pressure: on every constructed model every entry of the pressure
    gradient is [NaN] (the sea-level temperature it is computed from is the
    placeholder string), so for no two altitudes alt1 < alt2 of the domain
    is [_pressureGradient[alt1] > _pressureGradient[alt2]] true. *)
Theorem pressure_is_never_greater
    (E : engine) (I : imports) (data : value) (this : AtmosphereModel) :
  new E I data = Return this ->
  forall alt1 alt2 : Z, -2000 <= alt1 -> alt1 < alt2 -> alt2 <= 65617 ->
    _pressureGradient this !! IntegerKey alt1 = Some (VNum nan)
    /\ _pressureGradient this !! IntegerKey alt2 = Some (VNum nan)
    /\ greater (ToNumber E (read (_pressureGradient this) (IntegerKey alt1)))
               (ToNumber E (read (_pressureGradient this) (IntegerKey alt2))) = false.
Proof.
  intros Hnew alt1 alt2 H1 H12 H2.
  pose proof (new_pressure_entries E I data this alt1 Hnew ltac:(lia)) as Hp1.
  pose proof (new_pressure_entries E I data this alt2 Hnew ltac:(lia)) as Hp2.
  unfold read. rewrite Hp1, Hp2. repeat split.
Qed.

Lemma pressure_is_never_greater_witness :
  new Sample.E Sample.I Sample.data = Return Sample.model
  /\ greater (ToNumber Sample.E (read (_pressureGradient Sample.model) (IntegerKey 0)))
             (ToNumber Sample.E (read (_pressureGradient Sample.model) (IntegerKey 1)))
     = false.
Proof.
  split; [exact Sample_new|].
  apply (pressure_is_never_greater Sample.E Sample.I Sample.data Sample.model
           Sample_new 0 1); lia.
Defined.

(** C8.  What the code does where the claim expects a strictly decreasing
    temperature below 36089 ft: on every constructed model every entry of
    the temperature gradient is [NaN], so for no two altitudes
    alt1 < alt2 < 36089 is [_temperatureGradient[alt1] >
    _temperatureGradient[alt2]] true.  From 36089 to 65617 every entry is
    the entry at 36089. *)
Theorem temperature_is_never_greater
    (E : engine) (I : imports) (data : value) (this : AtmosphereModel) :
  new E I data = Return this ->
  (forall alt1 alt2 : Z, -2000 <= alt1 -> alt1 < alt2 -> alt2 < 36089 ->
     _temperatureGradient this !! IntegerKey alt1 = Some (VNum nan)
     /\ _temperatureGradient this !! IntegerKey alt2 = Some (VNum nan)
     /\ greater (ToNumber E (read (_temperatureGradient this) (IntegerKey alt1)))
                (ToNumber E (read (_temperatureGradient this) (IntegerKey alt2))) = false)
  /\ (forall alt : Z, 36089 <= alt <= 65617 ->
        _temperatureGradient this !! IntegerKey alt =
        _temperatureGradient this !! IntegerKey 36089).
Proof.
  intros Hnew. split.
  - intros alt1 alt2 H1 H12 H2.
    pose proof (new_temperature_entries E I data this alt1 Hnew ltac:(lia)) as Ht1.
    pose proof (new_temperature_entries E I data this alt2 Hnew ltac:(lia)) as Ht2.
    unfold read. rewrite Ht1, Ht2. repeat split.
  - intros alt Halt.
    destruct (new_fields E I data this Hnew) as (_ & _ & _ & Lt & _).
    rewrite !Lt. unfold temperature_entry.
    destruct (decide (-2000 <= alt < 36089)) as [?|_]; [lia|].
    destruct (decide (36089 <= alt <= 65617)) as [_|?]; [|lia].
    destruct (decide (-2000 <= 36089 < 36089)) as [?|_]; [lia|].
    destruct (decide (36089 <= 36089 <= 65617)) as [_|?]; [reflexivity|lia].
Qed.

Lemma temperature_is_never_greater_witness :
  new Sample.E Sample.I Sample.data = Return Sample.model
  /\ greater (ToNumber Sample.E (read (_temperatureGradient Sample.model) (IntegerKey 0)))
             (ToNumber Sample.E (read (_temperatureGradient Sample.model) (IntegerKey 1)))
     = false.
Proof.
  split; [exact Sample_new|].
  apply (proj1 (temperature_is_never_greater Sample.E Sample.I Sample.data
                  Sample.model Sample_new) 0 1); lia.
Defined.

(** ** The declared queries without a body *)

(** C9 as stated fails: the sound-speed query returns [undefined], and that
    is not a signal to its caller. *)
Lemma extension_point_returns_undefined :
  getSoundSpeedAtActualAltitude Sample.model [VNum 0%float] = Return VUndefined
  /\ ~ signalled (getSoundSpeedAtActualAltitude Sample.model [VNum 0%float]).
Proof.
  split; [reflexivity|]. intros [e He]. discriminate He.
Qed.

(** C9 amended.  On every instance and for every argument list, each of
    the five declared queries with an empty body
    ([getSoundSpeedAtActualAltitude], [getWindAtActualAltitude],
    [getActualAltitudeForPressureAltitude],
    [getPressureAltitudeForActualAltitude],
    [getDensityAltitudeForActualAltitude]) throws nothing and returns
    [undefined]. *)
Theorem extension_points_return_undefined
    (this : AtmosphereModel) (arguments : list value) :
  getSoundSpeedAtActualAltitude this arguments = Return VUndefined
  /\ getWindAtActualAltitude this arguments = Return VUndefined
  /\ getActualAltitudeForPressureAltitude this arguments = Return VUndefined
  /\ getPressureAltitudeForActualAltitude this arguments = Return VUndefined
  /\ getDensityAltitudeForActualAltitude this arguments = Return VUndefined.
Proof. repeat split. Qed.

(** * Further properties *)

(** ** The loops count exactly *)

Lemma for_number_iterate {S : Type} (test : number -> bool)
    (body : number -> S -> S) (count fuel : nat) (first : Z) (s : S) :
  -2000 <= first -> first + Z.of_nat count <= 65617 + 1 ->
  (forall z, first <= z <= first + Z.of_nat count ->
     test (number_of_Z z) = (z <? first + Z.of_nat count)) ->
  (count < fuel)%nat ->
  for_number fuel test (number_of_Z first) body s =
    Some (iterate count first (fun z => body (number_of_Z z)) s).
Proof.
  revert fuel first s. induction count as [|count IH]; intros fuel first s Hlo Hhi Htest Hfuel.
  - destruct fuel as [|fuel]; [lia|]. cbn [for_number iterate].
    rewrite Htest by lia.
    destruct (Z.ltb_spec first (first + Z.of_nat 0)); [lia|reflexivity].
  - destruct fuel as [|fuel]; [lia|]. cbn [for_number iterate].
    rewrite Htest by lia.
    destruct (Z.ltb_spec first (first + Z.of_nat (Datatypes.S count))); [|lia].
    rewrite number_of_Z_succ by lia.
    apply IH; try lia.
    intros z Hz. rewrite Htest by lia. f_equal. lia.
Qed.

(** X1.  The loops of the three builders, run as the source writes them
    (a Number counter, the test [alt < 36089] or [alt <= 65617], [alt++]),
    end within 67619 rounds and leave what the integer-counted loops of
    this development leave, whatever the body does: the counter is exact at
    every round. *)
Theorem loops_count_exactly {S : Type} (body : number -> S -> S) (s : S) (fuel : nat) :
  (Z.to_nat 67619 <= fuel)%nat ->
  for_number fuel (fun alt => alt <? 36089)%float (-2000)%float body s =
    Some (for_alt (-2000) (36089 - -2000) (fun alt => body (number_of_Z alt)) s)
  /\ for_number fuel (fun alt => alt <=? 65617)%float 36089%float body s =
    Some (for_alt 36089 (65617 + 1 - 36089) (fun alt => body (number_of_Z alt)) s)
  /\ for_number fuel (fun alt => alt <=? 65617)%float (-2000)%float body s =
    Some (for_alt (-2000) (65617 + 1 - -2000) (fun alt => body (number_of_Z alt)) s).
Proof.
  intros Hfuel. unfold for_alt.
  change (-2000)%float with (number_of_Z (-2000)).
  change 36089%float with (number_of_Z 36089).
  change 65617%float with (number_of_Z 65617).
  split; [|split]; apply for_number_iterate; try (rewrite Z2Nat.id by lia; lia); try lia.
  - intros z Hz. rewrite Z2Nat.id in * by lia. apply ltb_number_of_Z; lia.
  - intros z Hz. rewrite Z2Nat.id in * by lia.
    rewrite leb_number_of_Z by lia.
    destruct (Z.leb_spec z 65617), (Z.ltb_spec z (36089 + (65617 + 1 - 36089))); lia.
  - intros z Hz. rewrite Z2Nat.id in * by lia.
    rewrite leb_number_of_Z by lia.
    destruct (Z.leb_spec z 65617), (Z.ltb_spec z (-2000 + (65617 + 1 - -2000))); lia.
Qed.

Lemma loops_count_exactly_witness :
  (Z.to_nat 67619 <= Z.to_nat 67619)%nat
  /\ for_number (Z.to_nat 67619) (fun alt => alt <=? 65617)%float (-2000)%float
       (fun (alt : number) (n : Z) => n + 1) 0 =
     Some (for_alt (-2000) (65617 + 1 - -2000) (fun alt n => n + 1) 0).
Proof.
  split; [apply Nat.le_refl|].
  apply (loops_count_exactly (fun (alt : number) (n : Z) => n + 1) 0
           (Z.to_nat 67619) (Nat.le_refl _)).
Defined.

(** ** The builders, on any instance *)

Section Builders.
Context (E : engine).

Lemma _initPressureGradient_table (this : AtmosphereModel) :
  exists g : table,
    _initPressureGradient E this = set_pressureGradient g this
    /\ forall k, g !! k = pressure_entry E this k.
Proof.
  pose proof (_initPressureGradient_lookup E this) as L.
  destruct (_initPressureGradient_frame E this) as [g Hg].
  exists g. split; [exact Hg|]. intros k. rewrite <- L, Hg. reflexivity.
Qed.

Lemma _initTemperatureGradient_table (this : AtmosphereModel) :
  exists g : table,
    _initTemperatureGradient E this = set_temperatureGradient g this
    /\ forall k, g !! k = temperature_entry E this k.
Proof.
  pose proof (_initTemperatureGradient_lookup E this) as L.
  destruct (_initTemperatureGradient_frame E this) as [g Hg].
  exists g. split; [exact Hg|]. intros k. rewrite <- L, Hg. reflexivity.
Qed.

Lemma _initDensityGradient_table (this : AtmosphereModel) :
  exists g : table,
    _initDensityGradient E this = set_densityGradient g this
    /\ forall k, g !! k = density_entry E this k.
Proof.
  pose proof (_initDensityGradient_lookup E this) as L.
  destruct (_initDensityGradient_frame E this) as [g Hg].
  exists g. split; [exact Hg|]. intros k. rewrite <- L, Hg. reflexivity.
Qed.

(** X2.  Each builder starts from an empty table: on any instance, what
    it leaves does not depend on what its table held before, and running it
    a second time changes nothing. *)
Theorem builders_rebuild_their_table (this : AtmosphereModel) (g : table) :
  _initPressureGradient E (set_pressureGradient g this) = _initPressureGradient E this
  /\ _initTemperatureGradient E (set_temperatureGradient g this) =
       _initTemperatureGradient E this
  /\ _initDensityGradient E (set_densityGradient g this) = _initDensityGradient E this
  /\ _initPressureGradient E (_initPressureGradient E this) = _initPressureGradient E this
  /\ _initTemperatureGradient E (_initTemperatureGradient E this) =
       _initTemperatureGradient E this
  /\ _initDensityGradient E (_initDensityGradient E this) = _initDensityGradient E this.
Proof.
  assert (HP : forall g, _initPressureGradient E (set_pressureGradient g this) =
                         _initPressureGradient E this).
  { intros g0.
    destruct (_initPressureGradient_table (set_pressureGradient g0 this)) as (g1 & -> & L1).
    destruct (_initPressureGradient_table this) as (g2 & -> & L2).
    assert (g1 = g2) as -> by (apply map_eq; intros k; rewrite L1, L2; reflexivity).
    reflexivity. }
  assert (HT : forall g, _initTemperatureGradient E (set_temperatureGradient g this) =
                         _initTemperatureGradient E this).
  { intros g0.
    destruct (_initTemperatureGradient_table (set_temperatureGradient g0 this)) as (g1 & -> & L1).
    destruct (_initTemperatureGradient_table this) as (g2 & -> & L2).
    assert (g1 = g2) as -> by (apply map_eq; intros k; rewrite L1, L2; reflexivity).
    reflexivity. }
  assert (HD : forall g, _initDensityGradient E (set_densityGradient g this) =
                         _initDensityGradient E this).
  { intros g0.
    destruct (_initDensityGradient_table (set_densityGradient g0 this)) as (g1 & -> & L1).
    destruct (_initDensityGradient_table this) as (g2 & -> & L2).
    assert (g1 = g2) as -> by (apply map_eq; intros k; rewrite L1, L2; reflexivity).
    reflexivity. }
  split; [apply HP|]. split; [apply HT|]. split; [apply HD|].
  split; [|split].
  - destruct (_initPressureGradient_table this) as (g1 & Hg1 & _).
    rewrite Hg1 at 1. rewrite HP. reflexivity.
  - destruct (_initTemperatureGradient_table this) as (g1 & Hg1 & _).
    rewrite Hg1 at 1. rewrite HT. reflexivity.
  - destruct (_initDensityGradient_table this) as (g1 & Hg1 & _).
    rewrite Hg1 at 1. rewrite HD. reflexivity.
Qed.

(** X3.  On any instance, each builder changes its own table and no other
    field, and the pressure and temperature builders can run in either
    order. *)
Theorem builders_touch_their_table_only (this : AtmosphereModel) :
  _initPressureGradient E this =
    set_pressureGradient (_pressureGradient (_initPressureGradient E this)) this
  /\ _initTemperatureGradient E this =
       set_temperatureGradient
         (_temperatureGradient (_initTemperatureGradient E this)) this
  /\ _initDensityGradient E this =
       set_densityGradient (_densityGradient (_initDensityGradient E this)) this
  /\ _initPressureGradient E (_initTemperatureGradient E this) =
       _initTemperatureGradient E (_initPressureGradient E this).
Proof.
  split; [|split; [|split]].
  - destruct (_initPressureGradient_table this) as (g & -> & _). reflexivity.
  - destruct (_initTemperatureGradient_table this) as (g & -> & _). reflexivity.
  - destruct (_initDensityGradient_table this) as (g & -> & _). reflexivity.
  - destruct (_initTemperatureGradient_table this) as (t & -> & Lt).
    destruct (_initPressureGradient_table this) as (p & -> & Lp).
    destruct (_initPressureGradient_table (set_temperatureGradient t this))
      as (p' & -> & Lp').
    destruct (_initTemperatureGradient_table (set_pressureGradient p this))
      as (t' & -> & Lt').
    assert (p' = p) as -> by (apply map_eq; intros k; rewrite Lp', Lp; reflexivity).
    assert (t' = t) as -> by (apply map_eq; intros k; rewrite Lt', Lt; reflexivity).
    reflexivity.
Qed.

Lemma builders_ext (this1 this2 : AtmosphereModel) :
  _seaLevelTemperature this1 = _seaLevelTemperature this2 ->
  _seaLevelPressure this1 = _seaLevelPressure this2 ->
  _seaLevelWindVector this1 = _seaLevelWindVector this2 ->
  _initDensityGradient E (_initTemperatureGradient E (_initPressureGradient E this1)) =
  _initDensityGradient E (_initTemperatureGradient E (_initPressureGradient E this2)).
Proof.
  intros HT HP HW.
  destruct (_initPressureGradient_table this1) as (p1 & -> & Lp1).
  destruct (_initPressureGradient_table this2) as (p2 & -> & Lp2).
  assert (p1 = p2) as ->.
  { apply map_eq; intros k. rewrite Lp1, Lp2. unfold pressure_entry.
    rewrite HT, HP. reflexivity. }
  destruct (_initTemperatureGradient_table (set_pressureGradient p2 this1))
    as (t1 & -> & Lt1).
  destruct (_initTemperatureGradient_table (set_pressureGradient p2 this2))
    as (t2 & -> & Lt2).
  assert (t1 = t2) as ->.
  { apply map_eq; intros k. rewrite Lt1, Lt2. unfold temperature_entry, lapse.
    cbn [_seaLevelTemperature set_pressureGradient]. rewrite HT. reflexivity. }
  destruct (_initDensityGradient_table
              (set_temperatureGradient t2 (set_pressureGradient p2 this1)))
    as (d1 & -> & Ld1).
  destruct (_initDensityGradient_table
              (set_temperatureGradient t2 (set_pressureGradient p2 this2)))
    as (d2 & -> & Ld2).
  assert (d1 = d2) as ->.
  { apply map_eq; intros k. rewrite Ld1, Ld2. reflexivity. }
  destruct this1, this2. cbn in *. subst. reflexivity.
Qed.
End Builders.

(** ** Construction, in full *)

Section Constructor.
Context (E : engine) (I : imports).

Lemma _init_unfold (data : value) (this : AtmosphereModel) :
  _init E I data this =
    (_ ← Get data "surfaceTemperature";
     surfaceWind ← Get data "surfaceWind";
     wind ← surface_wind_vector I surfaceWind;
     mret (built E (_seaLevelPressure this) wind)).
Proof.
  unfold _init, surface_wind_vector, _initWindFromSurfaceWind,
    _initTemperatureFromSurfaceTemperature, built.
  unfold mbind, result_bind, mret, result_ret.
  destruct data as [| | | | |props]; try reflexivity.
  all: cbn [Get].
  all: match goal with
       | |- context [Get ?w "angle"] =>
           destruct (Get w "angle") as [angle|]; [|reflexivity]
       end.
  all: destruct (degreesToRadians I angle) as [radians|]; [|reflexivity].
  all: destruct (vectorize_2d I radians) as [direction|]; [|reflexivity].
  all: match goal with
       | |- context [Get ?w "speed"] =>
           destruct (Get w "speed") as [speed|]; [|reflexivity]
       end.
  all: destruct (vscale I direction speed) as [wind|]; [|reflexivity].
  all: cbv zeta; apply (f_equal Return); apply builders_ext.
  all: repeat match goal with |- context [is_undefined ?v] => destruct (is_undefined v) end;
       reflexivity.
Qed.

Lemma built_fields (pressure wind : value) :
  _seaLevelTemperature (built E pressure wind) = VStr "calculated new value"
  /\ _seaLevelPressure (built E pressure wind) = pressure
  /\ _seaLevelWindVector (built E pressure wind) = wind.
Proof.
  unfold built.
  match goal with |- context [_initPressureGradient E ?b] => set (base := b) end.
  destruct (_initPressureGradient_table E base) as (p & -> & _).
  destruct (_initTemperatureGradient_table E (set_pressureGradient p base))
    as (t & -> & _).
  destruct (_initDensityGradient_table E
              (set_temperatureGradient t (set_pressureGradient p base)))
    as (d & -> & _).
  repeat split.
Qed.

Lemma new_unfold (data : value) :
  new E I data =
    (_ ← Get data "surfaceTemperature";
     surfaceWind ← Get data "surfaceWind";
     wind ← surface_wind_vector I surfaceWind;
     mret (built E (ENVIRONMENT_get I "DEFAULT_SEA_LEVEL_PRESSURE_INHG") wind)).
Proof. unfold new. rewrite _init_unfold. reflexivity. Qed.

Lemma Get_Return_any (data v : value) (name name' : string) :
  Get data name = Return v -> exists v', Get data name' = Return v'.
Proof. destruct data; try discriminate; intros _; eexists; reflexivity. Qed.

(** X4.  [new AtmosphereModel(data)] returns an instance exactly when
    [data.surfaceWind] can be read and
    [vscale(vectorize_2d(degreesToRadians(surfaceWind.angle)), surfaceWind.speed)]
    returns; the instance is then the one the three builders leave from the
    placeholder temperature, the sea-level pressure of [ENVIRONMENT] and
    that vector, and its [_seaLevelWindVector] is that vector (never the
    default). *)
Theorem new_Return_iff (data : value) (this : AtmosphereModel) :
  (new E I data = Return this <->
   exists surfaceWind wind : value,
     Get data "surfaceWind" = Return surfaceWind
     /\ surface_wind_vector I surfaceWind = Return wind
     /\ this = built E (ENVIRONMENT_get I "DEFAULT_SEA_LEVEL_PRESSURE_INHG") wind)
  /\ (new E I data = Return this ->
      exists surfaceWind : value,
        Get data "surfaceWind" = Return surfaceWind
        /\ surface_wind_vector I surfaceWind = Return (_seaLevelWindVector this)).
Proof.
  assert (Hiff : new E I data = Return this <->
   exists surfaceWind wind : value,
     Get data "surfaceWind" = Return surfaceWind
     /\ surface_wind_vector I surfaceWind = Return wind
     /\ this = built E (ENVIRONMENT_get I "DEFAULT_SEA_LEVEL_PRESSURE_INHG") wind).
  { rewrite new_unfold. unfold mbind, result_bind, mret, result_ret. split.
    - destruct (Get data "surfaceTemperature"); [|discriminate].
      destruct (Get data "surfaceWind") as [surfaceWind|]; [|discriminate].
      destruct (surface_wind_vector I surfaceWind) as [wind|] eqn:Hv; [|discriminate].
      intros H%Return_inj. exists surfaceWind, wind.
      split; [reflexivity|]. split; [exact Hv|]. symmetry. exact H.
    - intros (surfaceWind & wind & Hw & Hv & ->).
      destruct (Get_Return_any _ _ _ "surfaceTemperature" Hw) as [v' ->].
      rewrite Hw, Hv. reflexivity. }
  split; [exact Hiff|].
  intros (surfaceWind & wind & Hw & Hv & ->)%Hiff.
  exists surfaceWind. split; [exact Hw|].
  destruct (built_fields (ENVIRONMENT_get I "DEFAULT_SEA_LEVEL_PRESSURE_INHG") wind)
    as (_ & _ & ->). exact Hv.
Qed.

(** X5.  [new AtmosphereModel(data)] throws in two ways only: [data] is
    [undefined] or [null] (the read of [surfaceTemperature] fails), or
    computing the wind vector throws; the error is then that one.  The
    builders never throw. *)
Theorem new_Throw_iff (data : value) (e : error) :
  new E I data = Throw e <->
  ((data = VUndefined \/ data = VNull)
   /\ e = CannotReadProperty data "surfaceTemperature")
  \/ exists surfaceWind : value,
       Get data "surfaceWind" = Return surfaceWind
       /\ surface_wind_vector I surfaceWind = Throw e.
Proof.
  rewrite new_unfold. unfold mbind, result_bind, mret, result_ret. split.
  - destruct data; cbn [Get];
      try (intros [= <-]; left; split; [tauto | reflexivity]).
    all: match goal with
         | |- context [surface_wind_vector I ?w] =>
             destruct (surface_wind_vector I w) as [wind|e'] eqn:Hv
         end; try discriminate.
    all: intros [= <-]; right; eexists; split; [reflexivity | exact Hv].
  - intros [[Hnull ->] | (surfaceWind & Hw & Hv)].
    + destruct Hnull as [-> | ->]; reflexivity.
    + destruct (Get_Return_any _ _ _ "surfaceTemperature" Hw) as [v' ->].
      rewrite Hw, Hv. reflexivity.
Qed.

(** X6.  Two inputs with the same [surfaceWind] give the same result:
    [surfaceTemperature] and [surfaceElevation] have no effect on
    construction. *)
Theorem new_ignores_surfaceTemperature (data1 data2 surfaceWind : value) :
  Get data1 "surfaceWind" = Return surfaceWind ->
  Get data2 "surfaceWind" = Return surfaceWind ->
  new E I data1 = new E I data2.
Proof.
  intros H1 H2. rewrite !new_unfold.
  destruct (Get_Return_any _ _ _ "surfaceTemperature" H1) as [v1 ->].
  destruct (Get_Return_any _ _ _ "surfaceTemperature" H2) as [v2 ->].
  unfold mbind, result_bind. rewrite H1, H2. reflexivity.
Qed.

Lemma _init_ext (data : value) (this1 this2 : AtmosphereModel) :
  _seaLevelPressure this1 = _seaLevelPressure this2 ->
  _init E I data this1 = _init E I data this2.
Proof. intros HP. rewrite !_init_unfold, HP. reflexivity. Qed.
End Constructor.

Lemma div_nan_r (x : number) : (x / nan)%float = nan.
Proof.
  apply Prim2SF_inj. rewrite div_spec, Prim2SF_nan.
  unfold SF64div, SFdiv. destruct (Prim2SF x); reflexivity.
Qed.

Lemma sub_0_r (x : number) : (x - 0)%float = x.
Proof.
  apply Prim2SF_inj. rewrite sub_spec.
  change (Prim2SF 0) with (S754_zero false).
  unfold SF64sub, SFsub. destruct (Prim2SF x) as [[]|[]| |]; reflexivity.
Qed.

Lemma Scenario_new :
  new Sample.E Sample.I Scenario.data = Return Sample.model.
Proof.
  unfold new, _init, _initWindFromSurfaceWind,
    _initTemperatureFromSurfaceTemperature, Sample.model.
  cbv beta iota zeta delta
    [mbind result_bind Get own_property Scenario.data String.eqb Ascii.eqb
     Bool.eqb is_undefined Sample.I degreesToRadians vectorize_2d vscale
     ENVIRONMENT ENVIRONMENT_get set_seaLevelTemperature
     set_seaLevelWindVector _seaLevelTemperature _seaLevelPressure
     _seaLevelWindVector _densityGradient _pressureGradient
     _temperatureGradient].
  reflexivity.
Qed.

Lemma new_ignores_surfaceTemperature_witness :
  Get Sample.data "surfaceWind" =
    Return (VObj [("angle", VNum 0%float); ("speed", VNum 0%float)])
  /\ Get Scenario.data "surfaceWind" =
    Return (VObj [("angle", VNum 0%float); ("speed", VNum 0%float)])
  /\ new Sample.E Sample.I Sample.data = new Sample.E Sample.I Scenario.data.
Proof.
  split; [reflexivity|]. split; [reflexivity|].
  apply (new_ignores_surfaceTemperature Sample.E Sample.I Sample.data Scenario.data
           (VObj [("angle", VNum 0%float); ("speed", VNum 0%float)]));
    reflexivity.
Defined.

Section Constructed.
Context (E : engine) (I : imports).

(** X7.  Running [_init] again on a constructed instance gives what a new
    construction from the same input gives: nothing of the old gradients,
    temperature or wind survives. *)
Theorem _init_again_is_new (data0 data : value) (this : AtmosphereModel) :
  new E I data0 = Return this ->
  _init E I data this = new E I data.
Proof.
  intros (_ & HP & _)%new_fields. unfold new.
  rewrite !_init_unfold, HP. reflexivity.
Qed.

Lemma new_tables (data : value) (this : AtmosphereModel) (k : property_key) :
  new E I data = Return this ->
  _pressureGradient this !! k = nan_entry k
  /\ _temperatureGradient this !! k = nan_entry k
  /\ _densityGradient this !! k = nan_entry k.
Proof.
  intros Hnew. destruct k as [z|s]; unfold nan_entry.
  - destruct (decide (-2000 <= z <= 65617)) as [Hz|Hz].
    + rewrite (new_pressure_entries E I data this z Hnew Hz).
      rewrite (new_temperature_entries E I data this z Hnew Hz).
      rewrite (new_density_entries E I data this z Hnew Hz). repeat split.
    + destruct (new_fields E I data this Hnew) as (_ & _ & Lp & Lt & Ld).
      rewrite Lp, Lt, Ld. unfold pressure_entry, temperature_entry, density_entry.
      repeat case_decide; try lia; repeat split.
  - destruct (new_fields E I data this Hnew) as (_ & _ & Lp & Lt & Ld).
    rewrite Lp, Lt, Ld. repeat split.
Qed.
End Constructed.

(** X8.  Any two constructed models, for any engine, imports and input,
    hold the same three gradients, and within a model the three gradients
    are one and the same table. *)
Theorem constructed_gradients_coincide
    (E1 E2 : engine) (I1 I2 : imports) (data1 data2 : value)
    (this1 this2 : AtmosphereModel) :
  new E1 I1 data1 = Return this1 ->
  new E2 I2 data2 = Return this2 ->
  _pressureGradient this1 = _pressureGradient this2
  /\ _temperatureGradient this1 = _temperatureGradient this2
  /\ _densityGradient this1 = _densityGradient this2
  /\ _pressureGradient this1 = _temperatureGradient this1
  /\ _temperatureGradient this1 = _densityGradient this1.
Proof.
  intros H1 H2.
  repeat split; apply map_eq; intros k;
    destruct (new_tables E1 I1 data1 this1 k H1) as (Hp1 & Ht1 & Hd1);
    destruct (new_tables E2 I2 data2 this2 k H2) as (Hp2 & Ht2 & Hd2); congruence.
Qed.

Lemma constructed_gradients_coincide_witness :
  new Sample.E Sample.I Sample.data = Return Sample.model
  /\ new Sample.E Sample.I Scenario.data = Return Sample.model
  /\ _pressureGradient Sample.model = _densityGradient Sample.model.
Proof.
  split; [exact Sample_new|]. split; [exact Scenario_new|].
  destruct (constructed_gradients_coincide Sample.E Sample.E Sample.I Sample.I
              Sample.data Scenario.data Sample.model Sample.model
              Sample_new Scenario_new) as (_ & _ & _ & Hpt & Htd).
  exact (eq_trans Hpt Htd).
Defined.

Lemma _init_again_is_new_witness :
  new Sample.E Sample.I Sample.data = Return Sample.model
  /\ _init Sample.E Sample.I Scenario.data Sample.model =
     new Sample.E Sample.I Scenario.data.
Proof.
  split; [exact Sample_new|].
  apply (_init_again_is_new Sample.E Sample.I Sample.data Scenario.data Sample.model).
  exact Sample_new.
Defined.

Section Queries.
Context (E : engine) (I : imports).

(** X9.  Construction followed by the query: on a constructed model
    [getTemperatureAtActualAltitude] returns [NaN] at every integer altitude
    it accepts. *)
Theorem query_of_constructed_is_NaN (data : value) (this : AtmosphereModel) (z : Z) :
  new E I data = Return this ->
  -2000 <= z < 65617 ->
  getTemperatureAtActualAltitude E this (number_of_Z z) = Return (VNum nan).
Proof.
  intros Hnew Hz. unfold getTemperatureAtActualAltitude.
  rewrite inRange_number_of_Z, ToPropertyKey_number_of_Z by lia.
  destruct (Z.leb_spec (-2000) z), (Z.ltb_spec z 65617); try lia.
  unfold read. rewrite (new_temperature_entries E I data this z Hnew) by lia.
  reflexivity.
Qed.

(** X10.  On a constructed model the query returns exactly at the
    integers of [-2000, 65617) while the gradient holds entries at the
    integers of [-2000, 65617]: the entry at 65617 is stored and the query
    throws for it. *)
Theorem query_stops_short_of_the_gradient (data : value) (this : AtmosphereModel) :
  new E I data = Return this ->
  (forall z : Z, - 2 ^ 53 < z < 2 ^ 53 ->
     ((exists v, getTemperatureAtActualAltitude E this (number_of_Z z) = Return v)
      <-> -2000 <= z < 65617)
     /\ (is_Some (_temperatureGradient this !! IntegerKey z) <-> -2000 <= z <= 65617))
  /\ is_Some (_temperatureGradient this !! IntegerKey 65617)
  /\ signalled (getTemperatureAtActualAltitude E this (number_of_Z 65617)).
Proof.
  intros Hnew.
  assert (Hq : forall z : Z, - 2 ^ 53 < z < 2 ^ 53 ->
     ((exists v, getTemperatureAtActualAltitude E this (number_of_Z z) = Return v)
      <-> -2000 <= z < 65617)).
  { intros z Hz. unfold getTemperatureAtActualAltitude.
    rewrite inRange_number_of_Z by lia.
    destruct (Z.leb_spec (-2000) z), (Z.ltb_spec z 65617); cbn [andb negb];
      split; try lia; try (intros _; eexists; reflexivity);
      intros [v Hv]; discriminate Hv. }
  assert (Hs : forall z : Z,
     is_Some (_temperatureGradient this !! IntegerKey z) <-> -2000 <= z <= 65617).
  { intros z. destruct (new_tables E I data this (IntegerKey z) Hnew) as (_ & -> & _).
    unfold nan_entry. case_decide; split; try lia; try (intros _; eexists; reflexivity).
    intros []%is_Some_None. }
  split; [intros z Hz; split; [apply Hq, Hz | apply Hs]|].
  split; [apply Hs; lia|].
  unfold signalled, getTemperatureAtActualAltitude.
  rewrite inRange_number_of_Z by lia. eexists. reflexivity.
Qed.
End Queries.

Lemma query_of_constructed_is_NaN_witness :
  new Sample.E Sample.I Sample.data = Return Sample.model
  /\ -2000 <= 0 < 65617
  /\ getTemperatureAtActualAltitude Sample.E Sample.model (number_of_Z 0) =
       Return (VNum nan).
Proof.
  split; [exact Sample_new|]. split; [lia|].
  apply (query_of_constructed_is_NaN Sample.E Sample.I Sample.data Sample.model 0);
    [exact Sample_new | lia].
Defined.

Lemma query_stops_short_of_the_gradient_witness :
  new Sample.E Sample.I Sample.data = Return Sample.model
  /\ is_Some (_temperatureGradient Sample.model !! IntegerKey 65617)
  /\ signalled (getTemperatureAtActualAltitude Sample.E Sample.model (number_of_Z 65617)).
Proof.
  split; [exact Sample_new|].
  apply (query_stops_short_of_the_gradient Sample.E Sample.I Sample.data Sample.model).
  exact Sample_new.
Defined.

Global Instance IntegerKey_inj : Inj (=) (=) IntegerKey.
Proof. intros z1 z2 [=]. assumption. Qed.

Lemma size_of_altitude_table (g : table) :
  (forall k, is_Some (g !! k) <-> altitude_key k) ->
  size g = Z.to_nat 67618.
Proof.
  intros Hg. rewrite <- size_dom.
  assert (dom g = list_to_set (IntegerKey <$> seqZ (-2000) 67618)) as ->.
  { apply set_eq. intros k.
    rewrite elem_of_dom, Hg, elem_of_list_to_set, list_elem_of_fmap.
    unfold altitude_key. split.
    - intros (z & -> & Hz). exists z. split; [reflexivity|]. apply elem_of_seqZ. lia.
    - intros (z & -> & Hz%elem_of_seqZ). exists z. split; [reflexivity|lia]. }
  rewrite size_list_to_set by (apply NoDup_fmap_2; [apply _|apply NoDup_seqZ]).
  rewrite length_fmap, length_seqZ. reflexivity.
Qed.

(** X11.  Each gradient of a constructed model holds exactly 67618
    entries. *)
Theorem gradients_have_67618_entries
    (E : engine) (I : imports) (data : value) (this : AtmosphereModel) :
  new E I data = Return this ->
  size (_pressureGradient this) = Z.to_nat 67618
  /\ size (_temperatureGradient this) = Z.to_nat 67618
  /\ size (_densityGradient this) = Z.to_nat 67618.
Proof.
  intros Hnew.
  destruct (new_fields E I data this Hnew) as (_ & _ & Lp & Lt & Ld).
  repeat split; apply size_of_altitude_table; intros k.
  - rewrite Lp. apply pressure_entry_is_Some.
  - rewrite Lt. apply temperature_entry_is_Some.
  - rewrite Ld. apply density_entry_is_Some.
Qed.

Lemma gradients_have_67618_entries_witness :
  new Sample.E Sample.I Sample.data = Return Sample.model
  /\ size (_pressureGradient Sample.model) = Z.to_nat 67618
  /\ size (_temperatureGradient Sample.model) = Z.to_nat 67618
  /\ size (_densityGradient Sample.model) = Z.to_nat 67618.
Proof.
  split; [exact Sample_new|].
  exact (gradients_have_67618_entries Sample.E Sample.I Sample.data Sample.model
           Sample_new).
Defined.

Section AnyInstance.
Context (E : engine).

(** X12.  On any instance, where the pressure or the temperature gradient
    has no entry at an altitude of the domain (or one that converts to
    [NaN]), the density builder stores [NaN] there and does not fail. *)
Theorem density_of_a_missing_entry_is_NaN (this : AtmosphereModel) (z : Z) :
  -2000 <= z <= 65617 ->
  ToNumber E (read (_pressureGradient this) (IntegerKey z)) = nan
  \/ ToNumber E (read (_temperatureGradient this) (IntegerKey z)) = nan ->
  _densityGradient (_initDensityGradient E this) !! IntegerKey z = Some (VNum nan).
Proof.
  intros Hz Hnan. rewrite _initDensityGradient_lookup. unfold density_entry, density.
  case_decide; [|lia]. do 2 f_equal.
  destruct Hnan as [-> | ->]; [rewrite mul_nan_r; apply div_nan_l | apply div_nan_r].
Qed.

(** X13.  On any instance, the temperature builder stores the sea-level
    temperature itself (converted to a Number) at 0 ft, the entry of 36089
    ft at every altitude from 36089 to 65617, and nothing at an integer
    outside [-2000, 65617]. *)
Theorem temperature_gradient_anchors (this : AtmosphereModel) :
  _temperatureGradient (_initTemperatureGradient E this) !! IntegerKey 0 =
    Some (VNum (ToNumber E (_seaLevelTemperature this)))
  /\ (forall z, 36089 <= z <= 65617 ->
        _temperatureGradient (_initTemperatureGradient E this) !! IntegerKey z =
        _temperatureGradient (_initTemperatureGradient E this) !! IntegerKey 36089)
  /\ (forall z, z < -2000 \/ 65617 < z ->
        _temperatureGradient (_initTemperatureGradient E this) !! IntegerKey z = None).
Proof.
  split; [|split].
  - rewrite _initTemperatureGradient_lookup. unfold temperature_entry, lapse.
    case_decide; [|lia].
    change (0.00198121311 * number_of_Z 0)%float with 0%float.
    rewrite sub_0_r. reflexivity.
  - intros z Hz. rewrite !_initTemperatureGradient_lookup. unfold temperature_entry.
    repeat case_decide; try lia; reflexivity.
  - intros z Hz. rewrite _initTemperatureGradient_lookup. unfold temperature_entry.
    repeat case_decide; try lia; reflexivity.
Qed.

(** X14.  On any instance, after the pressure and temperature builders:
    below 36089 ft the pressure entry is [seaLevelPressure *
    (temperature entry / seaLevelTemperature) ** 5.255876329], and from 36089
    ft up it is the pressure entry of 36089 ft times
    [Math.E ** (-0.0000480634303 * (alt - 36089))]. *)
Theorem pressure_follows_temperature (this : AtmosphereModel) :
  let this' := _initTemperatureGradient E (_initPressureGradient E this) in
  (forall z, -2000 <= z < 36089 ->
     _pressureGradient this' !! IntegerKey z =
       Some (VNum (ToNumber E (_seaLevelPressure this) *
                   exponentiate E
                     (ToNumber E (read (_temperatureGradient this') (IntegerKey z))
                      / ToNumber E (_seaLevelTemperature this))
                     5.255876329)%float))
  /\ (forall z, 36089 <= z <= 65617 ->
     _pressureGradient this' !! IntegerKey z =
       Some (VNum (ToNumber E (read (_pressureGradient this') (IntegerKey 36089)) *
                   exponentiate E Math_E
                     (- 0.0000480634303 * (number_of_Z z - 36089)))%float)).
Proof.
  cbv zeta.
  destruct (_initPressureGradient_table E this) as (p & Hp & Lp).
  destruct (_initTemperatureGradient_table E (_initPressureGradient E this))
    as (t & Ht & Lt).
  rewrite Ht, Hp. cbn [_pressureGradient _temperatureGradient set_temperatureGradient
                       set_pressureGradient].
  rewrite Hp in Lt.
  assert (Hb1 : read p (IntegerKey 36089) =
     VNum (barometric E (_seaLevelPressure this) (_seaLevelTemperature this) 36089%float)).
  { unfold read. rewrite Lp. unfold pressure_entry.
    destruct (decide (-2000 <= 36089 < 36089)) as [?|_]; [lia|].
    destruct (decide (36089 <= 36089 <= 65617)) as [_|?]; [|lia].
    unfold isothermal.
    change (exponentiate E Math_E (- 0.0000480634303 * (number_of_Z 36089 - 36089))%float)
      with 1%float.
    rewrite mul_1_r. reflexivity. }
  split.
  - intros z Hz. rewrite Lp. unfold pressure_entry. case_decide; [|lia].
    unfold read. rewrite Lt. unfold temperature_entry. case_decide; [|lia].
    reflexivity.
  - intros z Hz. rewrite Lp. unfold pressure_entry.
    destruct (decide (-2000 <= z < 36089)) as [?|_]; [lia|].
    destruct (decide (36089 <= z <= 65617)) as [_|?]; [|lia].
    rewrite Hb1. reflexivity.
Qed.
End AnyInstance.

Lemma density_of_a_missing_entry_is_NaN_witness :
  -2000 <= 0 <= 65617
  /\ ToNumber Sample.E (read (_pressureGradient Scenario.blank) (IntegerKey 0)) = nan
  /\ _densityGradient (_initDensityGradient Sample.E Scenario.blank) !! IntegerKey 0 =
       Some (VNum nan).
Proof.
  split; [lia|]. split; [reflexivity|].
  apply (density_of_a_missing_entry_is_NaN Sample.E Scenario.blank 0);
    [lia | left; reflexivity].
Defined.

(** X15.  An exception thrown by [degreesToRadians], [vectorize_2d] or
    [vscale] reaches the caller of the constructor unchanged. *)
Theorem helper_errors_reach_the_caller
    (E : engine) (I : imports) (data surfaceWind angle : value) (e : error) :
  Get data "surfaceWind" = Return surfaceWind ->
  Get surfaceWind "angle" = Return angle ->
  (degreesToRadians I angle = Throw e -> new E I data = Throw e)
  /\ (forall radians, degreesToRadians I angle = Return radians ->
        vectorize_2d I radians = Throw e -> new E I data = Throw e)
  /\ (forall radians direction speed,
        degreesToRadians I angle = Return radians ->
        vectorize_2d I radians = Return direction ->
        Get surfaceWind "speed" = Return speed ->
        vscale I direction speed = Throw e -> new E I data = Throw e).
Proof.
  intros Hw Ha. rewrite new_unfold.
  destruct (Get_Return_any _ _ _ "surfaceTemperature" Hw) as [v' ->].
  unfold surface_wind_vector, mbind, result_bind. rewrite Hw, Ha.
  split; [|split].
  - intros ->. reflexivity.
  - intros radians -> ->. reflexivity.
  - intros radians direction speed -> -> -> ->. reflexivity.
Qed.

Lemma helper_errors_reach_the_caller_witness :
  Get Sample.data "surfaceWind" =
    Return (VObj [("angle", VNum 0%float); ("speed", VNum 0%float)])
  /\ Get (VObj [("angle", VNum 0%float); ("speed", VNum 0%float)]) "angle" =
       Return (VNum 0%float)
  /\ new Sample.E Scenario.faulty Sample.data =
       Throw (TypeError "degrees must be a number").
Proof.
  split; [reflexivity|]. split; [reflexivity|].
  apply (proj1 (helper_errors_reach_the_caller Sample.E Scenario.faulty Sample.data
                  (VObj [("angle", VNum 0%float); ("speed", VNum 0%float)])
                  (VNum 0%float) (TypeError "degrees must be a number")
                  eq_refl eq_refl)).
  reflexivity.
Defined.
